(** * devops_ui/views.py: the Azure DevOps pipeline trigger view

    A shallow embedding of [myproject/devops_ui/views.py] and the
    properties of its validation, request building, response
    normalisation and error handling.

    Python [str] values are sequences of Unicode code points; they are
    modelled as lists of code points so that [str.strip], the regular
    expression class [\d], slicing and [urllib.parse.quote] keep their
    Unicode behaviour. *)

From Stdlib Require Import ZArith NArith Lia Ascii String DecimalString.
From stdpp Require Import base option list gmap strings.

Local Open Scope N_scope.

(** ** Python strings *)

Module PyStr.

Definition codepoint := N.
Definition pystr := list codepoint.

(** An ASCII literal of the source as a Python string. *)
Definition py (s : string) : pystr :=
  N_of_ascii <$> list_ascii_of_string s.

Definition in_ranges (rs : list (N * N)) (c : codepoint) : bool :=
  existsb (fun r => (fst r <=? c) && (c <=? snd r)) rs.

(** [str.isspace] on one character (CPython's [Py_UNICODE_ISSPACE]):
    the characters [str.strip()] removes. *)
Definition space_ranges : list (N * N) :=
  [ (0x9, 0xd); (0x1c, 0x20); (0x85, 0x85); (0xa0, 0xa0);
    (0x1680, 0x1680); (0x2000, 0x200a); (0x2028, 0x2029);
    (0x202f, 0x202f); (0x205f, 0x205f); (0x3000, 0x3000) ].

Definition isspace (c : codepoint) : bool := in_ranges space_ranges c.

(** [str.isdecimal] on one character (general category Nd, Unicode
    14.0.0): the characters the [re] class [\d] matches in a [str]
    pattern compiled without [re.ASCII]. *)
Definition decimal_ranges : list (N * N) :=
  [ (0x30, 0x39); (0x660, 0x669); (0x6f0, 0x6f9); (0x7c0, 0x7c9);
    (0x966, 0x96f); (0x9e6, 0x9ef); (0xa66, 0xa6f); (0xae6, 0xaef);
    (0xb66, 0xb6f); (0xbe6, 0xbef); (0xc66, 0xc6f); (0xce6, 0xcef);
    (0xd66, 0xd6f); (0xde6, 0xdef); (0xe50, 0xe59); (0xed0, 0xed9);
    (0xf20, 0xf29); (0x1040, 0x1049); (0x1090, 0x1099);
    (0x17e0, 0x17e9); (0x1810, 0x1819); (0x1946, 0x194f);
    (0x19d0, 0x19d9); (0x1a80, 0x1a89); (0x1a90, 0x1a99);
    (0x1b50, 0x1b59); (0x1bb0, 0x1bb9); (0x1c40, 0x1c49);
    (0x1c50, 0x1c59); (0xa620, 0xa629); (0xa8d0, 0xa8d9);
    (0xa900, 0xa909); (0xa9d0, 0xa9d9); (0xa9f0, 0xa9f9);
    (0xaa50, 0xaa59); (0xabf0, 0xabf9); (0xff10, 0xff19);
    (0x104a0, 0x104a9); (0x10d30, 0x10d39); (0x11066, 0x1106f);
    (0x110f0, 0x110f9); (0x11136, 0x1113f); (0x111d0, 0x111d9);
    (0x112f0, 0x112f9); (0x11450, 0x11459); (0x114d0, 0x114d9);
    (0x11650, 0x11659); (0x116c0, 0x116c9); (0x11730, 0x11739);
    (0x118e0, 0x118e9); (0x11950, 0x11959); (0x11c50, 0x11c59);
    (0x11d50, 0x11d59); (0x11da0, 0x11da9); (0x16a60, 0x16a69);
    (0x16ac0, 0x16ac9); (0x16b50, 0x16b59); (0x1d7ce, 0x1d7ff);
    (0x1e140, 0x1e149); (0x1e2f0, 0x1e2f9); (0x1e950, 0x1e959);
    (0x1fbf0, 0x1fbf9) ].

Definition isdecimal (c : codepoint) : bool := in_ranges decimal_ranges c.

(** The ASCII digits, the class [[0-9]]. *)
Definition is_ascii_digit (c : codepoint) : bool :=
  (0x30 <=? c) && (c <=? 0x39).

(** Truth value of a string: [bool(s)], false exactly for the empty one. *)
Definition truthy (s : pystr) : bool :=
  match s with [] => false | _ :: _ => true end.

(** [a or b] on strings. *)
Definition or_ (a b : pystr) : pystr := if truthy a then a else b.

(** [a or b] where [a] may be [None]. *)
Definition or_none (a : option pystr) (b : pystr) : pystr :=
  match a with Some s => or_ s b | None => b end.

Fixpoint drop_while (p : codepoint -> bool) (s : pystr) : pystr :=
  match s with
  | [] => []
  | c :: s' => if p c then drop_while p s' else s
  end.

Definition lstrip_with (p : codepoint -> bool) (s : pystr) : pystr :=
  drop_while p s.

Definition rstrip_with (p : codepoint -> bool) (s : pystr) : pystr :=
  reverse (drop_while p (reverse s)).

(** [s.strip()] *)
Definition strip (s : pystr) : pystr :=
  rstrip_with isspace (lstrip_with isspace s).

(** [s.rstrip(chars)] *)
Definition rstrip (s chars : pystr) : pystr :=
  rstrip_with (fun c => bool_decide (c ∈ chars)) s.

(** [s.startswith(p)] *)
Fixpoint startswith (s p : pystr) {struct p} : bool :=
  match p, s with
  | [], _ => true
  | _ :: _, [] => false
  | a :: p', b :: s' => (a =? b) && startswith s' p'
  end.

(** [needle in hay] *)
Fixpoint contains (needle hay : pystr) : bool :=
  startswith hay needle ||
  match hay with
  | [] => false
  | _ :: hay' => contains needle hay'
  end.

(** [s[:n]] for a non-negative [n]. *)
Definition slice_to (n : nat) (s : pystr) : pystr := take n s.

(** [sep.join(parts)] *)
Fixpoint join (sep : pystr) (parts : list pystr) : pystr :=
  match parts with
  | [] => []
  | [p] => p
  | p :: rest => p ++ sep ++ join sep rest
  end.

(** [str(n)] of an [int]: its decimal numeral. *)
Definition str_of_int (z : Z) : pystr :=
  py (NilZero.string_of_int (Z.to_int z)).

End PyStr.
Import PyStr.

(** ** Library functions the view calls *)

(** [re.compile(r"^\d+$").match(s)]: the greedy run of [\d] characters
    from the start must be non-empty and must reach the end of the
    string, or the newline that ends it (what [$] accepts without
    [re.MULTILINE]). Giving digits back cannot help: the next character
    is then a digit, where [$] fails. *)
Definition _PIPELINE_ID_RE_match (s : pystr) : bool :=
  let rest := drop_while isdecimal s in
  match s with
  | [] => false
  | c :: _ =>
      isdecimal c &&
      match rest with
      | [] => true
      | [nl] => nl =? 0x0a
      | _ => false
      end
  end.

Module Urllib.

(** UTF-8 bytes of one code point, as [str.encode("utf-8", "strict")]
    produces them; [None] stands for [UnicodeEncodeError], raised for
    the surrogates. Values above U+10FFFF are no code points. *)
Definition utf8_encode_cp (c : codepoint) : option (list N) :=
  if c <? 0x80 then Some [c]
  else if c <? 0x800 then Some [0xC0 + c / 0x40; 0x80 + c mod 0x40]
  else if (0xD800 <=? c) && (c <=? 0xDFFF) then None
  else if c <? 0x10000 then
    Some [0xE0 + c / 0x1000; 0x80 + (c / 0x40) mod 0x40; 0x80 + c mod 0x40]
  else if c <? 0x110000 then
    Some [0xF0 + c / 0x40000; 0x80 + (c / 0x1000) mod 0x40;
          0x80 + (c / 0x40) mod 0x40; 0x80 + c mod 0x40]
  else None.

Fixpoint utf8_encode (s : pystr) : option (list N) :=
  match s with
  | [] => Some []
  | c :: s' =>
      match utf8_encode_cp c, utf8_encode s' with
      | Some bs, Some rest => Some (bs ++ rest)
      | _, _ => None
      end
  end.

(** [_ALWAYS_SAFE]: ASCII letters, digits and [_.-~]. *)
Definition always_safe (b : N) : bool :=
  ((0x41 <=? b) && (b <=? 0x5A)) || ((0x61 <=? b) && (b <=? 0x7A)) ||
  ((0x30 <=? b) && (b <=? 0x39)) ||
  (b =? 0x5F) || (b =? 0x2E) || (b =? 0x2D) || (b =? 0x7E).

Definition hex_digit (n : N) : codepoint :=
  if n <? 10 then 0x30 + n else 0x41 + (n - 10).

(** One byte of [quote_from_bytes]: kept when safe, else [%XX] with
    upper-case hexadecimal digits. *)
Definition quote_byte (safe : pystr) (b : N) : pystr :=
  if always_safe b || bool_decide (b ∈ safe) then [b]
  else [0x25; hex_digit (b / 16); hex_digit (b mod 16)].

(** [quote(s, safe=safe)] on a [str]. *)
Definition quote (s safe : pystr) : option pystr :=
  bs ← utf8_encode s; Some (mjoin (quote_byte safe <$> bs)).

End Urllib.

(** ** Python values *)

Set Warnings "-register-all".

(** The values that reach the template context: what [resp.json()]
    returns (dict, list, str, int, float, bool, None) and the strings
    and dicts the view builds. A float is kept by its IEEE-754 bits; a
    dict by its items in insertion order. *)
Inductive pyobj : Type :=
| PyNone
| PyBool (b : bool)
| PyInt (z : Z)
| PyFloat (bits : N)
| PyStr (s : pystr)
| PyList (items : list pyobj)
| PyDict (items : list (pystr * pyobj)).

(** ** Collaborators: settings, request, requests, logging *)

(** [django.conf.settings], the four names the view reads. The two
    optional ones are [None] when the attribute is not set. *)
Record Settings : Type := {
  AZDO_ORG_URL : pystr;
  AZDO_PAT : pystr;
  AZDO_DEFAULT_PROJECT : option pystr;
  AZDO_DEFAULT_REF : option pystr
}.

(** The request: its method and its form data ([QueryDict.get] gives
    [None] for an absent field). *)
Record HttpRequest : Type := {
  method : string;
  POST : gmap string pystr
}.

(** A [requests.Response]: [json_value] is what [resp.json()] returns,
    [None] when it raises [ValueError] (the body is not JSON). *)
Record Response : Type := {
  status_code : Z;
  text : pystr;
  json_value : option pyobj
}.

(** [HTTPBasicAuth(username, password)] *)
Record HTTPBasicAuth : Type := {
  username : pystr;
  password : pystr
}.

(** The arguments of the one [requests.post] call. *)
Record OutboundCall : Type := {
  url : pystr;
  auth : HTTPBasicAuth;
  json : pyobj;
  timeout : Z
}.

(** Exceptions of the view. [Timeout] is a subclass of
    [RequestException]; [UnicodeEncodeError] is what [quote] raises. *)
Inductive exn : Type :=
| RuntimeError (msg : pystr)
| Timeout (msg : pystr)
| RequestException (msg : pystr)
| UnicodeEncodeError.

(** [str(e)] *)
Definition str_of_exn (e : exn) : pystr :=
  match e with
  | RuntimeError m | Timeout m | RequestException m => m
  | UnicodeEncodeError => py "codec can't encode character"
  end.

(** What the network does with a call: a response, a timeout, or any
    other [requests.exceptions.RequestException]. *)
Inductive NetReply : Type :=
| Replied (resp : Response)
| TimedOut (msg : pystr)
| Failed (msg : pystr).

Inductive LogLevel : Type := INFO | WARNING | ERROR.

(** A record emitted through [logger]: the formatted message, and the
    exception whose traceback [logger.exception] attaches. *)
Record LogRecord : Type := {
  level : LogLevel;
  message : pystr;
  exc_info : option exn
}.

(** The template response, or the 405 of [require_http_methods]. *)
Inductive HttpResponse : Type :=
| Render (template : string) (context : gmap string pyobj)
| HttpResponseNotAllowed (permitted : list string).

(** ** Effects: the log, the calls made, exceptions *)

Record World : Type := {
  log_records : list LogRecord;
  posts : list OutboundCall
}.

Definition world0 : World := {| log_records := []; posts := [] |}.

Definition M (A : Type) : Type := World -> (exn + A) * World.

Definition ret {A} (a : A) : M A := fun w => (inr a, w).

Definition raise {A} (e : exn) : M A := fun w => (inl e, w).

Definition bind {A B} (m : M A) (k : A -> M B) : M B :=
  fun w =>
    match m w with
    | (inl e, w') => (inl e, w')
    | (inr a, w') => k a w'
    end.

(** [try: body except ...: handler]; a handler that declines
    ([None]) lets the exception propagate. *)
Definition try_except {A} (body : M A) (handler : exn -> option (M A)) : M A :=
  fun w =>
    match body w with
    | (inl e, w') =>
        match handler e with
        | Some h => h w'
        | None => (inl e, w')
        end
    | (inr a, w') => (inr a, w')
    end.

Definition emit (r : LogRecord) : M () :=
  fun w => (inr (), {| log_records := log_records w ++ [r]; posts := posts w |}).

Notation "'do' x <- m ; k" := (bind m (fun x => k))
  (at level 10, x name, m at level 100, k at level 200,
   format "'[v' 'do'  x  <-  m ; '/' k ']'").
Notation "m ;; k" := (bind m (fun _ => k))
  (at level 100, k at level 200, right associativity).

(** ** The view *)

Section View.

Variable settings : Settings.

(** The remote service and the network between: what [requests.post]
    meets when it sends a call. *)
Variable net : OutboundCall -> NetReply.

(** [requests.post(url, auth=auth, json=payload, timeout=15)] *)
Definition requests_post (c : OutboundCall) : M Response :=
  fun w =>
    let w' := {| log_records := log_records w; posts := posts w ++ [c] |} in
    match net c with
    | Replied resp => (inr resp, w')
    | TimedOut msg => (inl (Timeout msg), w')
    | Failed msg => (inl (RequestException msg), w')
    end.

(** [_safe_json(resp)], lines 18-29. *)
Definition _safe_json (resp : Response) : pyobj :=
  if bool_decide (strip (or_ (text resp) (py "")) = py "") then PyDict []
  else
    match json_value resp with
    | Some v => v
    | None => PyDict [(py "raw", PyStr (slice_to 2000 (or_ (text resp) (py ""))))]
    end.

(** The literals of the view. *)
Definition MSG_CONFIG : pystr :=
  py "Azure DevOps configuration missing (AZDO_ORG_URL or AZDO_PAT).".
Definition MSG_PIPELINE_ID : pystr :=
  py "Pipeline ID must be a numeric ID (e.g., 42).".
Definition MSG_PROJECT_REQUIRED : pystr := py "Project is required.".
Definition MSG_PROJECT_SLASH : pystr :=
  py "Project must not contain '/'. Use the exact display name from Azure DevOps.".
Definition MSG_REF : pystr :=
  py "Branch must be a valid Git ref (e.g., refs/heads/main).".
Definition MSG_TIMEOUT : pystr :=
  py "Request to Azure DevOps timed out. Please retry.".
Definition TEMPLATE : string := "devops_ui/trigger.html".

(** The URL of lines 49-52. *)
Definition run_url (project_segment pipeline_id : pystr) : pystr :=
  rstrip (AZDO_ORG_URL settings) (py "/") ++ py "/" ++
  project_segment ++ py "/_apis/pipelines/" ++ pipeline_id ++
  py "/runs?api-version=7.1".

(** The payload of line 53. *)
Definition run_payload (ref_name : pystr) : pyobj :=
  PyDict [(py "resources",
    PyDict [(py "repositories",
      PyDict [(py "self",
        PyDict [(py "refName", PyStr ref_name)])])])].

(** [_trigger_devops_run(pipeline_id, project, ref_name)], lines 32-61. *)
Definition _trigger_devops_run (pipeline_id project ref_name : pystr)
  : M (Z * pyobj) :=
  if negb (truthy (AZDO_ORG_URL settings)) || negb (truthy (AZDO_PAT settings))
  then raise (RuntimeError MSG_CONFIG)
  else
    match Urllib.quote project (py "") with
    | None => raise UnicodeEncodeError
    | Some project_segment =>
        let url := run_url project_segment pipeline_id in
        let payload := run_payload ref_name in
        let auth := {| username := py ""; password := AZDO_PAT settings |} in
        do resp <- requests_post
                     {| url := url; auth := auth; json := payload; timeout := 15 |};
        let body := _safe_json resp in
        ret (status_code resp, body)
    end.

(** Lines 74-75. *)
Definition default_ref : pystr :=
  or_none (AZDO_DEFAULT_REF settings) (py "refs/heads/main").
Definition default_project : pystr :=
  default (py "") (AZDO_DEFAULT_PROJECT settings).

(** Lines 83-85: the three fields as the view reads them. *)
Definition form_pipeline_id (request : HttpRequest) : pystr :=
  strip (or_none (POST request !! "pipelineId") (py "")).
Definition form_project (request : HttpRequest) : pystr :=
  or_ (strip (or_none (POST request !! "project") (py ""))) default_project.
Definition form_ref_name (request : HttpRequest) : pystr :=
  or_ (strip (or_none (POST request !! "refName") (py ""))) default_ref.

(** Lines 96-107: the list [errors] after the three checks. *)
Definition validation_errors (pipeline_id project ref_name : pystr)
  : list pystr :=
  let errors := [] in
  let errors :=
    if negb (truthy pipeline_id) || negb (_PIPELINE_ID_RE_match pipeline_id)
    then errors ++ [MSG_PIPELINE_ID] else errors in
  let errors :=
    if negb (truthy project) then errors ++ [MSG_PROJECT_REQUIRED]
    else if contains (py "/") project then errors ++ [MSG_PROJECT_SLASH]
    else errors in
  let errors :=
    if negb (startswith ref_name (py "refs/")) then errors ++ [MSG_REF]
    else errors in
  errors.

(** Lines 113-143: the [try] statement; it leaves the context. The
    only statement of the body that can raise is the first, so each
    handler starts from the context as it was before the [try]. *)
Definition run_and_report (context : gmap string pyobj)
    (pipeline_id project ref_name : pystr) : M (gmap string pyobj) :=
  try_except
    (do r <- _trigger_devops_run pipeline_id project ref_name;
     let status := r.1 in
     let body := r.2 in
     let context :=
       <["result" := PyDict [(py "status", PyInt status); (py "body", body)]]>
         context in
     emit {| level := INFO;
             message := py "Triggered Azure DevOps pipeline: project=" ++ project
                        ++ py " pipeline_id=" ++ pipeline_id
                        ++ py " status=" ++ str_of_int status;
             exc_info := None |} ;;
     if (400 <=? status)%Z then
       ret (<["error" := PyStr (py "Azure DevOps returned HTTP " ++ str_of_int status
               ++ py ". "
               ++ py "Check pipeline ID, project name, branch ref, permissions, and PAT scopes.")]>
              context)
     else ret context)
    (fun e =>
       match e with
       | Timeout _ => Some (
           let context := <["error" := PyStr MSG_TIMEOUT]> context in
           emit {| level := WARNING;
                   message := py "Timeout triggering pipeline: project=" ++ project
                              ++ py " pipeline_id=" ++ pipeline_id;
                   exc_info := None |} ;;
           ret context)
       | RequestException _ => Some (
           let context :=
             <["error" := PyStr (py "Network error while contacting Azure DevOps: "
                                  ++ str_of_exn e)]> context in
           emit {| level := ERROR;
                   message := py "Network error triggering pipeline: project=" ++ project
                              ++ py " pipeline_id=" ++ pipeline_id;
                   exc_info := Some e |} ;;
           ret context)
       | RuntimeError _ => Some (
           let context := <["error" := PyStr (str_of_exn e)]> context in
           emit {| level := ERROR;
                   message := py "Configuration error: " ++ str_of_exn e;
                   exc_info := None |} ;;
           ret context)
       | UnicodeEncodeError => None
       end).

(** The body of [devops_trigger], lines 74-144. *)
Definition devops_trigger_body (request : HttpRequest) : M HttpResponse :=
  let context : gmap string pyobj :=
    <["default_ref" := PyStr default_ref]>
      (<["default_project" := PyStr default_project]> ∅) in
  if String.eqb (method request) "POST" then
    let pipeline_id := form_pipeline_id request in
    let project := form_project request in
    let ref_name := form_ref_name request in
    let context :=
      <["refName" := PyStr ref_name]>
        (<["project" := PyStr project]>
           (<["pipelineId" := PyStr pipeline_id]> context)) in
    let errors := validation_errors pipeline_id project ref_name in
    match errors with
    | _ :: _ =>
        let context := <["error" := PyStr (join (py " ") errors)]> context in
        ret (Render TEMPLATE context)
    | [] =>
        do context <- run_and_report context pipeline_id project ref_name;
        ret (Render TEMPLATE context)
    end
  else ret (Render TEMPLATE context).

(** [@require_http_methods(request_method_list)] *)
Definition require_http_methods (request_method_list : list string)
    (view : HttpRequest -> M HttpResponse) (request : HttpRequest)
  : M HttpResponse :=
  if bool_decide (method request ∈ request_method_list) then view request
  else ret (HttpResponseNotAllowed request_method_list).

(** [devops_trigger(request)], lines 64-144. *)
Definition devops_trigger : HttpRequest -> M HttpResponse :=
  require_http_methods ["GET"; "POST"]%string devops_trigger_body.

End View.

(** ** Running the view, and what the caller sees *)

(** One request handled from a fresh log. *)
Definition handle (settings : Settings) (net : OutboundCall -> NetReply)
    (request : HttpRequest) : (exn + HttpResponse) * World :=
  devops_trigger settings net request world0.

(** The settings with another access token. *)
Definition with_token (tok : pystr) (s : Settings) : Settings :=
  {| AZDO_ORG_URL := AZDO_ORG_URL s;
     AZDO_PAT := tok;
     AZDO_DEFAULT_PROJECT := AZDO_DEFAULT_PROJECT s;
     AZDO_DEFAULT_REF := AZDO_DEFAULT_REF s |}.







(** ** The outcome, in the spec's vocabulary *)

Inductive ErrorKind : Type := InvalidInput | Configuration | TimeoutKind | Network.

Record TriggerResult : Type := {
  httpStatus : Z;
  body : pyobj;
  succeeded : bool
}.

Inductive TriggerOutcome : Type :=
| Success (result : TriggerResult)
| Failure (kind : ErrorKind) (msg : pystr).

(** The failure kind of a handled request shows in the record the
    handler logged: none for a validation failure, a warning for a
    timeout, an error with the exception attached for a network
    failure, a plain error for missing configuration. *)
Definition failure_kind (records : list LogRecord) : option ErrorKind :=
  match last records with
  | None => Some InvalidInput
  | Some r =>
      match level r, exc_info r with
      | WARNING, _ => Some TimeoutKind
      | ERROR, Some _ => Some Network
      | ERROR, None => Some Configuration
      | INFO, _ => None
      end
  end.

(** The spec's [TriggerOutcome] read off what the view produced: a
    context with a ["result"] entry is a [Success], whose [succeeded]
    flag is the absence of an ["error"] entry; a context with only an
    ["error"] entry is a [Failure]. A page without either (a GET) has
    no outcome. *)
Definition outcome_of (r : (exn + HttpResponse) * World) : option TriggerOutcome :=
  match r.1 with
  | inr (Render _ context) =>
      match context !! "result", context !! "error" with
      | Some (PyDict [(_, PyInt status); (_, b)]), e =>
          Some (Success {| httpStatus := status; body := b;
                           succeeded := if e is None then true else false |})
      | None, Some (PyStr msg) =>
          kind ← failure_kind (log_records r.2); Some (Failure kind msg)
      | _, _ => None
      end
  | _ => None
  end.

(** The advisory text shown with a remote status of 400 and above. *)
Definition remediation_hint (status : Z) : pystr :=
  py "Azure DevOps returned HTTP " ++ str_of_int status ++ py ". " ++
  py "Check pipeline ID, project name, branch ref, permissions, and PAT scopes.".

(** The context of a POST before validation, lines 77-93. *)
Definition form_context (settings : Settings) (request : HttpRequest)
  : gmap string pyobj :=
  <["refName" := PyStr (form_ref_name settings request)]>
    (<["project" := PyStr (form_project settings request)]>
       (<["pipelineId" := PyStr (form_pipeline_id request)]>
          (<["default_ref" := PyStr (default_ref settings)]>
             (<["default_project" := PyStr (default_project settings)]> ∅)))).

(** The one call a validated request leads to. *)
Definition call_for (settings : Settings) (project_segment pipeline_id ref_name : pystr)
  : OutboundCall :=
  {| url := run_url settings project_segment pipeline_id;
     auth := {| username := py ""; password := AZDO_PAT settings |};
     json := run_payload ref_name;
     timeout := 15 |}.

(** Characters of a percent-encoded path segment: the unreserved
    characters of RFC 3986 and the percent sign. *)
Definition segment_char (c : codepoint) : bool :=
  Urllib.always_safe c || (c =? 0x25).

(** The delimiters of RFC 3986 (gen-delims and sub-delims), with the
    percent sign and the space. *)
Definition url_metachar (c : codepoint) : bool :=
  bool_decide (c ∈ py ":/?#[]@!$&'()*+,;=% ").

(** ** The paths of the view *)

Section PathData.

Variable settings : Settings.
Variable request : HttpRequest.

Let pipeline_id := form_pipeline_id request.
Let project := form_project settings request.
Let ref_name := form_ref_name settings request.

Definition configured : bool :=
  truthy (AZDO_ORG_URL settings) && truthy (AZDO_PAT settings).

Definition info_record (status : Z) : LogRecord :=
  {| level := INFO;
     message := py "Triggered Azure DevOps pipeline: project=" ++ project
                ++ py " pipeline_id=" ++ pipeline_id
                ++ py " status=" ++ str_of_int status;
     exc_info := None |}.

Definition timeout_record : LogRecord :=
  {| level := WARNING;
     message := py "Timeout triggering pipeline: project=" ++ project
                ++ py " pipeline_id=" ++ pipeline_id;
     exc_info := None |}.

Definition network_record (msg : pystr) : LogRecord :=
  {| level := ERROR;
     message := py "Network error triggering pipeline: project=" ++ project
                ++ py " pipeline_id=" ++ pipeline_id;
     exc_info := Some (RequestException msg) |}.

Definition config_record : LogRecord :=
  {| level := ERROR;
     message := py "Configuration error: " ++ MSG_CONFIG;
     exc_info := None |}.

Definition result_entry (resp : Response) : pyobj :=
  PyDict [(py "status", PyInt (status_code resp)); (py "body", _safe_json resp)].

(** What the view does once a reply to its call is known. *)
Definition after_reply (c : OutboundCall) (reply : NetReply)
  : (exn + HttpResponse) * World :=
  match reply with
  | Replied resp =>
      let context := <["result" := result_entry resp]> (form_context settings request) in
      (inr (Render TEMPLATE
              (if (400 <=? status_code resp)%Z
               then <["error" := PyStr (remediation_hint (status_code resp))]> context
               else context)),
       {| log_records := [info_record (status_code resp)]; posts := [c] |})
  | TimedOut _ =>
      (inr (Render TEMPLATE
              (<["error" := PyStr MSG_TIMEOUT]> (form_context settings request))),
       {| log_records := [timeout_record]; posts := [c] |})
  | Failed msg =>
      (inr (Render TEMPLATE
              (<["error" := PyStr (py "Network error while contacting Azure DevOps: " ++ msg)]>
                 (form_context settings request))),
       {| log_records := [network_record msg]; posts := [c] |})
  end.

End PathData.

(** ** The validation rules, one by one *)

(** The three checks of lines 96-107 taken apart, each on its own
    field, to compare with the list the view builds. *)
Definition pipeline_id_rule (pipeline_id : pystr) : list pystr :=
  if truthy pipeline_id && _PIPELINE_ID_RE_match pipeline_id then []
  else [MSG_PIPELINE_ID].

Definition project_rule (project : pystr) : list pystr :=
  if negb (truthy project) then [MSG_PROJECT_REQUIRED]
  else if contains (py "/") project then [MSG_PROJECT_SLASH]
  else [].

Definition ref_rule (ref_name : pystr) : list pystr :=
  if startswith ref_name (py "refs/") then [] else [MSG_REF].

(** The message a page shows, if any. *)
Definition shown_error (r : (exn + HttpResponse) * World) : option pystr :=
  match r.1 with
  | inr (Render _ context) =>
      match context !! "error" with
      | Some (PyStr msg) => Some msg
      | _ => None
      end
  | _ => None
  end.

(** The text the project rule is said to show for a slash, and the
    project rule as stated with it: default substitution, then one of
    two messages shown exactly. *)
Definition MSG_PROJECT_SLASH_short : pystr :=
  py "Project must not contain '/'. Use the exact display name.".

Definition project_rule_as_stated (settings : Settings)
    (net : OutboundCall -> NetReply) (request : HttpRequest) : Prop :=
  let project := form_project settings request in
  (strip (or_none (POST request !! "project") (py "")) = [] ->
   project = default_project settings) /\
  (project = [] ->
   shown_error (handle settings net request) = Some MSG_PROJECT_REQUIRED) /\
  (contains (py "/") project = true ->
   shown_error (handle settings net request) = Some MSG_PROJECT_SLASH_short).

(** ** Sample inputs *)

Module Sample.

Definition settings : Settings :=
  {| AZDO_ORG_URL := py "https://dev.azure.com/Org/";
     AZDO_PAT := py "tok3n";
     AZDO_DEFAULT_PROJECT := None;
     AZDO_DEFAULT_REF := None |}.

(** A POST of the form with the three fields filled in. *)
Definition form (pipeline_id project ref_name : pystr) : HttpRequest :=
  {| method := "POST";
     POST := <["pipelineId" := pipeline_id]>
               (<["project" := project]> (<["refName" := ref_name]> ∅)) |}.

Definition good_form : HttpRequest :=
  form (py "42") (py "MyProj") (py "refs/heads/main").

(** A network that answers every call the same way. *)
Definition always (reply : NetReply) : OutboundCall -> NetReply :=
  fun _ => reply.

Definition not_found : Response :=
  {| status_code := 404; text := py ""; json_value := None |}.

Definition created : Response :=
  {| status_code := 200; text := py "{}"; json_value := Some (PyDict []) |}.



End Sample.

(** ** Variations of the inputs *)

(** The settings with another organisation URL and token, the
    defaults kept. *)
Definition with_endpoint (org tok : pystr) (s : Settings) : Settings :=
  {| AZDO_ORG_URL := org;
     AZDO_PAT := tok;
     AZDO_DEFAULT_PROJECT := AZDO_DEFAULT_PROJECT s;
     AZDO_DEFAULT_REF := AZDO_DEFAULT_REF s |}.

(** The request with one form field set, and with one left out. *)
Definition with_field (k : string) (v : pystr) (request : HttpRequest)
  : HttpRequest :=
  {| method := method request; POST := <[k := v]> (POST request) |}.

Definition without_field (k : string) (request : HttpRequest) : HttpRequest :=
  {| method := method request; POST := delete k (POST request) |}.



(** The form as the page shows it again, submitted once more: each of
    the three fields holds what the view read the first time. *)
Definition resubmitted (settings : Settings) (request : HttpRequest)
  : HttpRequest :=
  {| method := method request;
     POST := <["pipelineId" := form_pipeline_id request]>
               (<["project" := form_project settings request]>
                  (<["refName" := form_ref_name settings request]> (POST request))) |}.

(** * Properties *)

(** ** Strings *)

Section StringFacts.

Implicit Types (s t : pystr) (p : codepoint -> bool).

Lemma drop_while_split p s :
  exists pre, s = pre ++ drop_while p s /\ Forall (fun c => p c = true) pre.
Proof.
  induction s as [|c s IH]; simpl.
  - exists []. split; [reflexivity | constructor].
  - destruct (p c) eqn:Hc.
    + destruct IH as (pre & Hs & Hpre). exists (c :: pre). split.
      * simpl. congruence.
      * constructor; assumption.
    + exists []. split; [reflexivity | constructor].
Qed.

Lemma drop_while_head p s c t : drop_while p s = c :: t -> p c = false.
Proof.
  induction s as [|a s IH]; simpl; [discriminate |].
  destruct (p a) eqn:Ha; [exact IH |].
  intros [= -> _]. exact Ha.
Qed.

Lemma drop_while_all p s : Forall (fun c => p c = true) s -> drop_while p s = [].
Proof.
  induction 1 as [|c s Hc _ IH]; simpl; [reflexivity |]. now rewrite Hc.
Qed.

(** What [rstrip] leaves does not end with a stripped character. *)
Lemma rstrip_with_last p s c : last (rstrip_with p s) = Some c -> p c = false.
Proof.
  unfold rstrip_with. rewrite last_reverse.
  destruct (drop_while p (reverse s)) as [|a t] eqn:E; simpl; [discriminate |].
  intros [= ->]. eapply drop_while_head, E.
Qed.

(** What [rstrip] takes away are stripped characters only. *)
Lemma rstrip_with_split p s :
  exists tail, s = rstrip_with p s ++ tail /\ Forall (fun c => p c = true) tail.
Proof.
  unfold rstrip_with.
  destruct (drop_while_split p (reverse s)) as (pre & Hs & Hpre).
  exists (reverse pre). split.
  - rewrite <- reverse_app, <- Hs. now rewrite reverse_involutive.
  - now apply Forall_reverse.
Qed.

Lemma strip_last s c : last (strip s) = Some c -> isspace c = false.
Proof. apply rstrip_with_last. Qed.

Lemma startswith_app s t : startswith (t ++ s) t = true.
Proof. induction t as [|a t IH]; simpl; [reflexivity |]. now rewrite N.eqb_refl. Qed.

Lemma startswith_prefix s t : startswith s t = true -> exists rest, s = t ++ rest.
Proof.
  revert s. induction t as [|a t IH]; intros s; simpl.
  - exists s. reflexivity.
  - destruct s as [|b s]; [discriminate |].
    intros [Hab Hst]%andb_true_iff. apply N.eqb_eq in Hab as ->.
    destruct (IH _ Hst) as [rest ->]. exists rest. reflexivity.
Qed.

Lemma contains_char c s : contains [c] s = true <-> c ∈ s.
Proof.
  induction s as [|a s IH]; simpl.
  - split; [discriminate | intros H; inversion H].
  - rewrite orb_true_iff, IH, andb_true_r, N.eqb_eq, elem_of_cons.
    split; intros [H | H]; auto.
Qed.

Lemma in_ranges_cons r rs c :
  in_ranges (r :: rs) c = (r.1 <=? c) && (c <=? r.2) || in_ranges rs c.
Proof. reflexivity. Qed.

Lemma in_ranges_above rs c :
  Forall (fun r => c < r.1) rs -> in_ranges rs c = false.
Proof.
  induction 1 as [|r rs Hr _ IH]; simpl; [reflexivity |].
  rewrite IH, orb_false_r. apply andb_false_intro1. now apply N.leb_gt.
Qed.

(** Below U+0080 the class [\d] is the class [[0-9]]. *)
Lemma isdecimal_ascii c : c < 0x80 -> isdecimal c = is_ascii_digit c.
Proof.
  intros Hc. unfold isdecimal, decimal_ranges, is_ascii_digit.
  rewrite in_ranges_cons, in_ranges_above.
  - apply orb_false_r.
  - repeat (constructor; [cbn [fst]; lia |]). constructor.
Qed.

(** A string the pattern matches, when it does not end with a newline,
    is a non-empty run of [\d] characters; and conversely. *)
Lemma re_match_digits s :
  last s <> Some 0x0a ->
  _PIPELINE_ID_RE_match s = true <->
  s <> [] /\ Forall (fun c => isdecimal c = true) s.
Proof.
  intros Hlast. unfold _PIPELINE_ID_RE_match.
  destruct (drop_while_split isdecimal s) as (pre & Hs & Hpre).
  destruct s as [|c s']; [split; [discriminate | intros [[] _]; reflexivity] |].
  set (s := c :: s') in *. split.
  - intros [Hc Hrest]%andb_true_iff. split; [discriminate |].
    destruct (drop_while isdecimal s) as [|nl [|? ?]] eqn:E; try discriminate.
    + rewrite app_nil_r in Hs. now rewrite Hs.
    + apply N.eqb_eq in Hrest as ->. exfalso. apply Hlast.
      rewrite Hs. now rewrite last_snoc.
  - intros [_ Hall]. rewrite (drop_while_all _ _ Hall).
    inversion Hall; subst. now rewrite andb_true_r.
Qed.

End StringFacts.

(** ** Percent-encoding *)

Section QuoteFacts.

Import Urllib.

Lemma utf8_lead_lt a b q base :
  a < b * q -> base + q <= 256 -> base + a / b < 256.
Proof.
  intros Ha Hq. assert (a / b < q) by now apply N.Div0.div_lt_upper_bound. lia.
Qed.

Lemma utf8_cont_lt a : 0x80 + a mod 0x40 < 256.
Proof. assert (a mod 0x40 < 0x40) by now apply N.mod_lt. lia. Qed.

Lemma utf8_encode_cp_bytes c bs :
  utf8_encode_cp c = Some bs -> Forall (fun b => b < 256) bs.
Proof.
  unfold utf8_encode_cp.
  repeat match goal with
         | |- context [if ?b then _ else _] => destruct b eqn:?
         end; try discriminate; intros [= <-];
    repeat match goal with
           | H : (_ <? _) = true |- _ => apply N.ltb_lt in H
           | H : (_ <? _) = false |- _ => apply N.ltb_ge in H
           end;
    repeat (apply Forall_cons_2;
            [first [ lia | apply utf8_cont_lt
                   | apply (utf8_lead_lt _ _ 32); lia
                   | apply (utf8_lead_lt _ _ 16); lia
                   | apply (utf8_lead_lt _ _ 5); lia ] |]);
    apply Forall_nil_2.
Qed.

Lemma utf8_encode_bytes s bs :
  utf8_encode s = Some bs -> Forall (fun b => b < 256) bs.
Proof.
  revert bs. induction s as [|c s IH]; simpl; intros bs.
  - intros [= <-]. constructor.
  - destruct (utf8_encode_cp c) as [b1|] eqn:E1; [|discriminate].
    destruct (utf8_encode s) as [b2|]; [|discriminate].
    intros [= <-]. apply Forall_app. split.
    + eapply utf8_encode_cp_bytes, E1.
    + now apply IH.
Qed.

Lemma hex_digit_safe n : n < 16 -> always_safe (hex_digit n) = true.
Proof.
  intros Hn. unfold hex_digit, always_safe.
  destruct (N.ltb_spec n 10).
  - replace ((0x30 <=? 0x30 + n) && (0x30 + n <=? 0x39)) with true.
    + now rewrite !orb_true_r.
    + symmetry. apply andb_true_iff. split; apply N.leb_le; lia.
  - replace ((0x41 <=? 0x41 + (n - 10)) && (0x41 + (n - 10) <=? 0x5A)) with true.
    + reflexivity.
    + symmetry. apply andb_true_iff. split; apply N.leb_le; lia.
Qed.

Lemma quote_byte_chars b :
  b < 256 -> Forall (fun c => segment_char c = true) (quote_byte (py "") b).
Proof.
  intros Hb. unfold quote_byte, segment_char.
  rewrite (bool_decide_eq_false_2 (b ∈ py "")) by (intros H; inversion H).
  rewrite orb_false_r.
  destruct (always_safe b) eqn:Hs.
  - apply Forall_cons_2; [now rewrite Hs | apply Forall_nil_2].
  - apply Forall_cons_2; [reflexivity |].
    apply Forall_cons_2.
    { rewrite hex_digit_safe; [reflexivity |].
      apply N.Div0.div_lt_upper_bound; lia. }
    apply Forall_cons_2; [| apply Forall_nil_2].
    rewrite hex_digit_safe; [reflexivity |].
    apply N.mod_lt; lia.
Qed.

(** With [safe=""] the quoted text consists of unreserved characters
    and percent signs only. *)
Lemma quote_chars s q :
  quote s (py "") = Some q -> Forall (fun c => segment_char c = true) q.
Proof.
  unfold quote. destruct (utf8_encode s) as [bs|] eqn:E; [|discriminate].
  simpl. intros [= <-]. apply utf8_encode_bytes in E.
  induction E as [|b bs Hb _ IH]; simpl; [constructor |].
  apply Forall_app. split; [now apply quote_byte_chars | exact IH].
Qed.

(** No character of a quoted segment is a URL delimiter other than
    the percent sign of an escape. *)
Lemma segment_char_not_reserved c :
  segment_char c = true -> c <> 0x25 -> url_metachar c = false.
Proof.
  unfold segment_char, always_safe, url_metachar. intros H Hc.
  apply bool_decide_eq_false_2. intros Hin.
  repeat (apply elem_of_cons in Hin as [-> | Hin]; [now (vm_compute in H; try discriminate; exfalso; apply Hc) |]).
  inversion Hin.
Qed.


End QuoteFacts.

(** ** The view, path by path *)

Section Paths.

Variable settings : Settings.
Variable net : OutboundCall -> NetReply.
Variable request : HttpRequest.

Let pipeline_id := form_pipeline_id request.
Let project := form_project settings request.
Let ref_name := form_ref_name settings request.

Lemma method_allowed_post :
  method request = "POST"%string ->
  handle settings net request = devops_trigger_body settings net request world0.
Proof.
  intros Hm. unfold handle, devops_trigger, require_http_methods.
  rewrite Hm. reflexivity.
Qed.

(** A GET shows the empty form. *)
Lemma handle_get :
  method request = "GET"%string ->
  handle settings net request =
  (inr (Render TEMPLATE
          (<["default_ref" := PyStr (default_ref settings)]>
             (<["default_project" := PyStr (default_project settings)]> ∅))),
   world0).
Proof.
  intros Hm. unfold handle, devops_trigger, require_http_methods, devops_trigger_body.
  rewrite Hm. reflexivity.
Qed.

(** Any other method is refused by the decorator. *)
Lemma handle_not_allowed :
  method request <> "GET"%string -> method request <> "POST"%string ->
  handle settings net request =
  (inr (HttpResponseNotAllowed ["GET"; "POST"]%string), world0).
Proof.
  intros Hg Hp. unfold handle, devops_trigger, require_http_methods.
  rewrite bool_decide_eq_false_2; [reflexivity |].
  rewrite !elem_of_cons. intros [? | [? | H]]; [done | done | inversion H].
Qed.

(** Validation failed: the page with the joined messages, nothing else. *)
Lemma handle_invalid e es :
  method request = "POST"%string ->
  validation_errors pipeline_id project ref_name = e :: es ->
  handle settings net request =
  (inr (Render TEMPLATE
          (<["error" := PyStr (join (py " ") (e :: es))]>
             (form_context settings request))),
   world0).
Proof.
  intros Hm He. rewrite (method_allowed_post Hm).
  unfold devops_trigger_body. rewrite Hm. cbn [String.eqb Ascii.eqb Bool.eqb].
  fold pipeline_id project ref_name. rewrite He. reflexivity.
Qed.

(** Validation passed, configuration missing. *)
Lemma handle_unconfigured :
  method request = "POST"%string ->
  validation_errors pipeline_id project ref_name = [] ->
  configured settings = false ->
  handle settings net request =
  (inr (Render TEMPLATE
          (<["error" := PyStr MSG_CONFIG]> (form_context settings request))),
   {| log_records := [config_record]; posts := [] |}).
Proof.
  intros Hm He Hc. rewrite (method_allowed_post Hm).
  unfold devops_trigger_body. rewrite Hm. cbn [String.eqb Ascii.eqb Bool.eqb].
  fold pipeline_id project ref_name. rewrite He.
  unfold run_and_report, try_except, bind, _trigger_devops_run.
  unfold configured in Hc. rewrite <- negb_andb, Hc. reflexivity.
Qed.

(** Validation passed, configured, but the project holds a surrogate:
    [quote] raises and no handler takes the exception. *)
Lemma handle_unencodable :
  method request = "POST"%string ->
  validation_errors pipeline_id project ref_name = [] ->
  configured settings = true ->
  Urllib.quote project (py "") = None ->
  handle settings net request = (inl UnicodeEncodeError, world0).
Proof.
  intros Hm He Hc Hq. rewrite (method_allowed_post Hm).
  unfold devops_trigger_body. rewrite Hm. cbn [String.eqb Ascii.eqb Bool.eqb].
  fold pipeline_id project ref_name. rewrite He.
  unfold run_and_report, try_except, bind, _trigger_devops_run.
  unfold configured in Hc. rewrite <- negb_andb, Hc. cbn [negb].
  fold project. rewrite Hq. reflexivity.
Qed.

(** Validation passed, configured, encodable: one call, and the page
    follows from the reply. *)
Lemma handle_call seg :
  method request = "POST"%string ->
  validation_errors pipeline_id project ref_name = [] ->
  configured settings = true ->
  Urllib.quote project (py "") = Some seg ->
  handle settings net request =
  after_reply settings request (call_for settings seg pipeline_id ref_name)
              (net (call_for settings seg pipeline_id ref_name)).
Proof.
  intros Hm He Hc Hq. rewrite (method_allowed_post Hm).
  unfold devops_trigger_body. rewrite Hm. cbn [String.eqb Ascii.eqb Bool.eqb].
  fold pipeline_id project ref_name. rewrite He.
  unfold run_and_report, try_except, bind, _trigger_devops_run.
  unfold configured in Hc. rewrite <- negb_andb, Hc. cbn [negb].
  rewrite Hq. unfold requests_post, bind. fold (call_for settings seg pipeline_id ref_name).
  unfold after_reply.
  destruct (net _) as [resp | msg | msg]; cbn [ret emit fst snd world0 log_records posts app].
  - destruct (400 <=? status_code resp)%Z; reflexivity.
  - reflexivity.
  - reflexivity.
Qed.

End Paths.

(** ** The scenarios of the specification, run *)

Section Scenarios.

Let run (reply : NetReply) (request : HttpRequest) :=
  handle Sample.settings (Sample.always reply) request.

Example strip_unicode :
  strip (py "  42 ") = py "42" /\ strip [0x3000; 0x34; 0x32; 0x0a] = py "42".
Proof. split; reflexivity. Qed.

Example quote_reserved :
  Urllib.quote (py "a b/c?d") (py "") = Some (py "a%20b%2Fc%3Fd") /\
  Urllib.quote [0xe9; 0x20ac] (py "") = Some (py "%C3%A9%E2%82%AC") /\
  Urllib.quote [0xD800] (py "") = None.
Proof. repeat split; reflexivity. Qed.

Example pattern_samples :
  _PIPELINE_ID_RE_match (py "42") = true /\
  _PIPELINE_ID_RE_match (py "+42") = false /\
  _PIPELINE_ID_RE_match (py "4 2") = false /\
  _PIPELINE_ID_RE_match (py "") = false /\
  _PIPELINE_ID_RE_match [0x34; 0x32; 0x0a] = true.
Proof. repeat split; reflexivity. Qed.

(** 1. A valid request answered 200 with a JSON object. *)
Example scenario_success :
  outcome_of (run (Replied {| status_code := 200; text := py "{id:123}";
                              json_value := Some (PyDict [(py "id", PyInt 123)]) |})
                  Sample.good_form) =
  Some (Success {| httpStatus := 200; body := PyDict [(py "id", PyInt 123)];
                   succeeded := true |}).
Proof. reflexivity. Qed.

(** 2. A pipeline ID of letters. *)
Example scenario_bad_pipeline_id :
  let r := run (Replied Sample.created)
               (Sample.form (py "abc") (py "MyProj") (py "refs/heads/main")) in
  outcome_of r = Some (Failure InvalidInput (py "Pipeline ID must be a numeric ID (e.g., 42).")) /\
  posts r.2 = [].
Proof. split; reflexivity. Qed.

(** 4. The remote times out. *)
Example scenario_timeout :
  let r := run (TimedOut (py "read timed out")) Sample.good_form in
  outcome_of r = Some (Failure TimeoutKind (py "Request to Azure DevOps timed out. Please retry.")) /\
  level <$> log_records r.2 = [WARNING].
Proof. split; reflexivity. Qed.

(** Another network failure: the detail text is shown and the
    exception is logged. *)
Example scenario_network :
  let r := run (Failed (py "connection refused")) Sample.good_form in
  outcome_of r =
    Some (Failure Network (py "Network error while contacting Azure DevOps: connection refused")) /\
  exc_info <$> log_records r.2 = [Some (RequestException (py "connection refused"))].
Proof. split; reflexivity. Qed.

(** A GET shows the form and has no outcome. *)
Example scenario_get :
  outcome_of (run (Replied Sample.created) {| method := "GET"; POST := ∅ |}) = None.
Proof. reflexivity. Qed.

End Scenarios.

(** ** Validation *)

Lemma or_empty s : or_ s (py "") = s.
Proof. destruct s; reflexivity. Qed.

(** The list the view builds is the three rules side by side. *)
Lemma validation_errors_rules pipeline_id project ref_name :
  validation_errors pipeline_id project ref_name =
  pipeline_id_rule pipeline_id ++ project_rule project ++ ref_rule ref_name.
Proof.
  unfold validation_errors, pipeline_id_rule, project_rule, ref_rule.
  rewrite <- negb_andb.
  destruct (truthy pipeline_id && _PIPELINE_ID_RE_match pipeline_id);
    destruct (truthy project); destruct (contains (py "/") project);
    destruct (startswith ref_name (py "refs/")); reflexivity.
Qed.

(** ** Response normalisation *)



(** ** Validation, claim by claim *)

Ltac msg_neq :=
  let H := fresh in intros H; vm_compute in H; discriminate H.

Lemma shown_error_insert settings request (e : pystr) w :
  shown_error (inr (Render TEMPLATE (<["error" := PyStr e]> (form_context settings request))), w)
  = Some e.
Proof. unfold shown_error. cbn [fst]. now rewrite lookup_insert_eq. Qed.



(** C6: an empty trimmed refName is replaced by the configured default
    ref, which is refs/heads/main when unset or empty; the branch
    message is among the violations exactly when the resulting value
    does not start with refs/, and with the other two fields valid the
    validation fails exactly then. *)
Theorem C6_ref_rule settings request pipeline_id project :
  let submitted := strip (or_none (POST request !! "refName") (py "")) in
  let ref_name := form_ref_name settings request in
  (submitted = [] -> ref_name = default_ref settings) /\
  (submitted <> [] -> ref_name = submitted) /\
  default_ref settings =
    match AZDO_DEFAULT_REF settings with
    | Some (c :: rest) => c :: rest
    | _ => py "refs/heads/main"
    end /\
  (MSG_REF ∈ validation_errors pipeline_id project ref_name <->
   startswith ref_name (py "refs/") = false) /\
  (pipeline_id_rule pipeline_id = [] -> project_rule project = [] ->
   (validation_errors pipeline_id project ref_name <> [] <->
    startswith ref_name (py "refs/") = false)).
Proof.
  intros submitted ref_name. unfold ref_name, form_ref_name. fold submitted.
  split; [intros ->; reflexivity |].
  split; [destruct submitted; [done | reflexivity] |].
  split; [unfold default_ref; now destruct (AZDO_DEFAULT_REF settings) as [[|]|] |].
  rewrite validation_errors_rules. split.
  - rewrite !elem_of_app. unfold pipeline_id_rule, project_rule, ref_rule. split.
    + intros [H | [H | H]]; revert H;
        repeat match goal with
               | |- context [if ?b then _ else _] => destruct b
               end;
        intros H; try (inversion H; fail); try reflexivity;
        apply list_elem_of_singleton in H; revert H; msg_neq.
    + intros ->. right. right. now apply list_elem_of_singleton.
  - intros -> ->. unfold ref_rule. simpl.
    match goal with |- context [if ?b then _ else _] => destruct b end;
      split; done.
Qed.

Lemma C6_ref_rule_witness :
  form_ref_name Sample.settings (Sample.form (py "42") (py "MyProj") (py "  ")) =
    py "refs/heads/main" /\
  form_ref_name Sample.settings (Sample.form (py "42") (py "MyProj") (py " main ")) =
    py "main" /\
  (validation_errors (py "42") (py "MyProj")
     (form_ref_name Sample.settings (Sample.form (py "42") (py "MyProj") (py " main ")))
   <> []).
Proof.
  destruct (C6_ref_rule Sample.settings (Sample.form (py "42") (py "MyProj") (py "  "))
              (py "42") (py "MyProj")) as (Hdef & _ & _ & _ & _).
  destruct (C6_ref_rule Sample.settings (Sample.form (py "42") (py "MyProj") (py " main "))
              (py "42") (py "MyProj")) as (_ & Hsub & _ & _ & Hfail).
  split; [rewrite Hdef; reflexivity |].
  split; [rewrite Hsub; [reflexivity | vm_compute; discriminate] |].
  apply Hfail; reflexivity.
Defined.

(** C4, as stated, fails: for the project Team/Sub with the other two
    fields valid the page shows the longer text that ends in
    from Azure DevOps, not the text the statement gives. *)
Lemma C4_project_rule_counterexample :
  ~ project_rule_as_stated Sample.settings
      (Sample.always (Replied Sample.created))
      (Sample.form (py "42") (py "Team/Sub") (py "refs/heads/main")).
Proof.
  intros (_ & _ & H). specialize (H eq_refl). vm_compute in H. discriminate H.
Qed.

(** C4, amended: an empty trimmed project is replaced by the
    configured default project (empty when unset); an empty result
    puts the message Project is required. among the violations, a
    result with a slash puts the message that ends in from Azure
    DevOps. there, and no other project message exists; the page shows
    exactly that message when the other two fields are valid, and the
    space-joined list of all violations in general. *)
Theorem C4_project_rule settings net request :
  method request = "POST"%string ->
  let submitted := strip (or_none (POST request !! "project") (py "")) in
  let pipeline_id := form_pipeline_id request in
  let project := form_project settings request in
  let ref_name := form_ref_name settings request in
  (submitted = [] -> project = default (py "") (AZDO_DEFAULT_PROJECT settings)) /\
  (submitted <> [] -> project = submitted) /\
  (project = [] -> project_rule project = [MSG_PROJECT_REQUIRED]) /\
  (contains (py "/") project = true -> project_rule project = [MSG_PROJECT_SLASH]) /\
  (project <> [] -> contains (py "/") project = false -> project_rule project = []) /\
  (forall msg, project_rule project = [msg] ->
   msg ∈ validation_errors pipeline_id project ref_name /\
   shown_error (handle settings net request) =
     Some (join (py " ") (pipeline_id_rule pipeline_id ++ [msg] ++ ref_rule ref_name)) /\
   (pipeline_id_rule pipeline_id = [] -> ref_rule ref_name = [] ->
    shown_error (handle settings net request) = Some msg)).
Proof.
  intros Hm submitted pipeline_id project ref_name.
  split; [unfold project, form_project; fold submitted; intros ->; reflexivity |].
  split; [unfold project, form_project; fold submitted;
          destruct submitted; [done | reflexivity] |].
  split; [intros ->; reflexivity |].
  split; [intros H; unfold project_rule; rewrite H; now destruct project |].
  split; [intros Hne H; unfold project_rule; rewrite H; now destruct project |].
  intros msg Hmsg.
  assert (validation_errors pipeline_id project ref_name =
          pipeline_id_rule pipeline_id ++ [msg] ++ ref_rule ref_name) as He
    by (rewrite validation_errors_rules; now rewrite Hmsg).
  split; [rewrite He, !elem_of_app; right; left; now apply list_elem_of_singleton |].
  assert (shown_error (handle settings net request) =
          Some (join (py " ") (pipeline_id_rule pipeline_id ++ [msg] ++ ref_rule ref_name)))
    as Hshown.
  { destruct (validation_errors pipeline_id project ref_name) as [|e es] eqn:E.
    - destruct (pipeline_id_rule pipeline_id); discriminate He.
    - rewrite (handle_invalid settings net request e es Hm E).
      rewrite shown_error_insert. now rewrite He. }
  split; [exact Hshown |].
  intros Hp Hr. rewrite Hshown, Hp, Hr. reflexivity.
Qed.

Lemma C4_project_rule_witness :
  let request := Sample.form (py "42") (py " Team/Sub ") (py "refs/heads/main") in
  form_project Sample.settings request = py "Team/Sub" /\
  shown_error (handle Sample.settings (Sample.always (Replied Sample.created)) request) =
    Some (py "Project must not contain '/'. Use the exact display name from Azure DevOps.") /\
  shown_error (handle Sample.settings (Sample.always (Replied Sample.created))
                 (Sample.form (py "42") (py "  ") (py "refs/heads/main"))) =
    Some (py "Project is required.").
Proof.
  intros request.
  destruct (C4_project_rule Sample.settings (Sample.always (Replied Sample.created))
              request eq_refl) as (_ & Hsub & _ & Hslash & _ & Hshow).
  destruct (C4_project_rule Sample.settings (Sample.always (Replied Sample.created))
              (Sample.form (py "42") (py "  ") (py "refs/heads/main")) eq_refl)
    as (Hdef & _ & Hreq & _ & _ & Hshow').
  split; [rewrite Hsub; [reflexivity | vm_compute; discriminate] |].
  split.
  - apply (Hshow MSG_PROJECT_SLASH); [apply Hslash |..]; reflexivity.
  - apply (Hshow' MSG_PROJECT_REQUIRED); [apply Hreq |..]; reflexivity.
Defined.

(** The pipeline rule on the code: a trimmed value that is empty or
    holds a character outside the class [\d] is refused with the
    pipeline message, and nothing is sent or logged. *)
Lemma pipeline_id_rejected settings net request :
  method request = "POST"%string ->
  let pipeline_id := form_pipeline_id request in
  pipeline_id = [] \/ Exists (fun c => isdecimal c = false) pipeline_id ->
  MSG_PIPELINE_ID ∈ validation_errors pipeline_id
    (form_project settings request) (form_ref_name settings request) /\
  (exists msg, shown_error (handle settings net request) = Some msg /\
               startswith msg MSG_PIPELINE_ID = true) /\
  (handle settings net request).2 = world0.
Proof.
  intros Hm pipeline_id Hbad.
  assert (pipeline_id_rule pipeline_id = [MSG_PIPELINE_ID]) as Hrule.
  { unfold pipeline_id_rule.
    destruct (truthy pipeline_id && _PIPELINE_ID_RE_match pipeline_id) eqn:E;
      [| reflexivity].
    apply andb_true_iff in E as [Ht Hre]. exfalso.
    apply re_match_digits in Hre as [_ Hall].
    - destruct Hbad as [-> | Hex]; [discriminate |].
      apply Exists_exists in Hex as (c & Hin & Hc).
      rewrite Forall_forall in Hall. specialize (Hall c Hin). congruence.
    - intros Hlast. apply strip_last in Hlast. discriminate Hlast. }
  pose proof (validation_errors_rules pipeline_id (form_project settings request)
                (form_ref_name settings request)) as He.
  rewrite Hrule in He. split; [rewrite He; now left |].
  rewrite (handle_invalid settings net request _ _ Hm He).
  split; [| reflexivity].
  rewrite shown_error_insert. eexists. split; [reflexivity |].
  cbn [app]. destruct (project_rule _ ++ ref_rule _) as [|e es].
  - cbn [join]. rewrite <- (app_nil_r MSG_PIPELINE_ID) at 1. apply startswith_app.
  - cbn [join]. apply startswith_app.
Qed.

(** Below U+0080 the pattern accepts the ASCII digits only. *)
Lemma pipeline_id_ascii s :
  Forall (fun c => c < 0x80) s -> last s <> Some 0x0a ->
  _PIPELINE_ID_RE_match s = true <->
  s <> [] /\ Forall (fun c => is_ascii_digit c = true) s.
Proof.
  intros Hascii Hlast. rewrite (re_match_digits s Hlast).
  split; intros [Hne Hall]; (split; [exact Hne |]);
    rewrite Forall_forall in *; intros c Hin;
    [rewrite <- isdecimal_ascii | rewrite isdecimal_ascii]; auto.
Qed.

(** C3, the failing input: the pipeline ID U+0663 (ARABIC-INDIC DIGIT
    THREE) is no ASCII digit and does not match [^[0-9]+$], yet the
    pattern [^\d+$] accepts it, validation passes and the call is
    made with it in the URL. *)
Theorem C3_non_ascii_digit_accepted :
  let request := Sample.form [0x663] (py "MyProj") (py "refs/heads/main") in
  form_pipeline_id request = [0x663] /\
  forallb is_ascii_digit (form_pipeline_id request) = false /\
  _PIPELINE_ID_RE_match (form_pipeline_id request) = true /\
  validation_errors (form_pipeline_id request)
    (form_project Sample.settings request)
    (form_ref_name Sample.settings request) = [] /\
  shown_error (handle Sample.settings (Sample.always (Replied Sample.created)) request)
    = None /\
  posts (handle Sample.settings (Sample.always (Replied Sample.created)) request).2 =
  [call_for Sample.settings (py "MyProj") [0x663] (py "refs/heads/main")].
Proof. vm_compute. repeat split. Qed.

(** ** The outbound call *)

(** A call is made on one path only: a POST that passed validation,
    with the configuration present and the project encodable. *)
Lemma handle_posts settings net request c :
  c ∈ posts (handle settings net request).2 ->
  method request = "POST"%string /\
  validation_errors (form_pipeline_id request) (form_project settings request)
    (form_ref_name settings request) = [] /\
  configured settings = true /\
  exists seg,
    Urllib.quote (form_project settings request) (py "") = Some seg /\
    c = call_for settings seg (form_pipeline_id request) (form_ref_name settings request) /\
    handle settings net request = after_reply settings request c (net c).
Proof.
  intros Hc.
  destruct (decide (method request = "POST"%string)) as [Hm | Hm].
  2:{ exfalso. destruct (decide (method request = "GET"%string)) as [Hg | Hg].
      - rewrite handle_get in Hc by assumption. inversion Hc.
      - rewrite handle_not_allowed in Hc by assumption. inversion Hc. }
  destruct (validation_errors (form_pipeline_id request) (form_project settings request)
              (form_ref_name settings request)) as [|e es] eqn:He.
  2:{ exfalso. rewrite (handle_invalid settings net request e es Hm He) in Hc.
      inversion Hc. }
  destruct (configured settings) eqn:Hcfg.
  2:{ exfalso. rewrite (handle_unconfigured settings net request Hm He Hcfg) in Hc.
      inversion Hc. }
  destruct (Urllib.quote (form_project settings request) (py "")) as [seg|] eqn:Hq.
  2:{ exfalso. rewrite (handle_unencodable settings net request Hm He Hcfg Hq) in Hc.
      inversion Hc. }
  pose proof (handle_call settings net request seg Hm He Hcfg Hq) as Hh.
  assert (c = call_for settings seg (form_pipeline_id request)
                (form_ref_name settings request)) as ->.
  { rewrite Hh in Hc. unfold after_reply in Hc.
    destruct (net _); cbn [snd posts] in Hc;
      now apply list_elem_of_singleton in Hc. }
  split; [exact Hm |]. split; [reflexivity |]. split; [reflexivity |].
  exists seg. split; [reflexivity |]. split; [reflexivity | exact Hh].
Qed.

Lemma rstrip_slash s :
  exists slashes,
    s = rstrip s (py "/") ++ slashes /\
    Forall (fun ch => ch = 0x2F) slashes /\
    last (rstrip s (py "/")) <> Some 0x2F.
Proof.
  unfold rstrip.
  destruct (rstrip_with_split (fun c => bool_decide (c ∈ py "/")) s) as (tail & Hs & Ht).
  exists tail. split; [exact Hs |]. split.
  - eapply Forall_impl; [exact Ht |]. intros ch Hch. cbn beta in Hch.
    apply bool_decide_eq_true_1 in Hch. now apply list_elem_of_singleton in Hch.
  - intros Hlast. apply rstrip_with_last in Hlast. discriminate Hlast.
Qed.

(** C7: whenever the view makes its call, the URL is the organisation
    URL without its trailing slashes, a slash, the project quoted with
    no character exempted (so made of unreserved characters and
    percent escapes only), the text /_apis/pipelines/, the pipeline
    ID and the text /runs?api-version=7.1; and the JSON payload is the
    object resources, repositories, self, refName holding the ref. *)
Theorem C7_outbound_call settings net request c :
  c ∈ posts (handle settings net request).2 ->
  exists base slashes seg,
    AZDO_ORG_URL settings = base ++ slashes /\
    Forall (fun ch => ch = 0x2F) slashes /\
    last base <> Some 0x2F /\
    Urllib.quote (form_project settings request) (py "") = Some seg /\
    Forall (fun ch => segment_char ch = true) seg /\
    url c = base ++ py "/" ++ seg ++ py "/_apis/pipelines/" ++
            form_pipeline_id request ++ py "/runs?api-version=7.1" /\
    json c =
      PyDict [(py "resources",
        PyDict [(py "repositories",
          PyDict [(py "self",
            PyDict [(py "refName", PyStr (form_ref_name settings request))])])])].
Proof.
  intros Hc. apply handle_posts in Hc as (_ & _ & _ & seg & Hq & -> & _).
  destruct (rstrip_slash (AZDO_ORG_URL settings)) as (slashes & Hs & Hsl & Hlast).
  exists (rstrip (AZDO_ORG_URL settings) (py "/")), slashes, seg.
  repeat split; try assumption; try reflexivity.
  eapply quote_chars, Hq.
Qed.

Lemma C7_outbound_call_witness :
  let request := Sample.form (py "42") (py "My Proj") (py "refs/heads/main") in
  let c := call_for Sample.settings (py "My%20Proj") (py "42") (py "refs/heads/main") in
  posts (handle Sample.settings (Sample.always (Replied Sample.created)) request).2 = [c] /\
  url c = py "https://dev.azure.com/Org/My%20Proj/_apis/pipelines/42/runs?api-version=7.1" /\
  exists base slashes seg,
    AZDO_ORG_URL Sample.settings = base ++ slashes /\
    Forall (fun ch => ch = 0x2F) slashes /\
    last base <> Some 0x2F /\
    Urllib.quote (form_project Sample.settings request) (py "") = Some seg /\
    Forall (fun ch => segment_char ch = true) seg /\
    url c = base ++ py "/" ++ seg ++ py "/_apis/pipelines/" ++
            form_pipeline_id request ++ py "/runs?api-version=7.1" /\
    json c =
      PyDict [(py "resources",
        PyDict [(py "repositories",
          PyDict [(py "self",
            PyDict [(py "refName", PyStr (form_ref_name Sample.settings request))])])])].
Proof.
  intros request c.
  split; [reflexivity |]. split; [reflexivity |].
  apply (C7_outbound_call Sample.settings (Sample.always (Replied Sample.created))
           request c).
  apply list_elem_of_singleton. reflexivity.
Defined.

(** ** User input in the URL *)

(** No character of the class [\d] is a URL delimiter, and below
    U+0080 it is one of the ten ASCII digits. *)
Lemma isdecimal_safe ch :
  isdecimal ch = true ->
  url_metachar ch = false /\ (ch < 0x80 -> is_ascii_digit ch = true).
Proof.
  intros H. split.
  - apply bool_decide_eq_false_2. intros Hin.
    repeat (apply elem_of_cons in Hin as [-> | Hin];
            [vm_compute in H; discriminate H |]).
    inversion Hin.
  - intros Hlt. now rewrite <- isdecimal_ascii.
Qed.

(** A validated pipeline ID is a non-empty run of [\d] characters. *)
Lemma validated_pipeline_id settings request :
  validation_errors (form_pipeline_id request) (form_project settings request)
    (form_ref_name settings request) = [] ->
  form_pipeline_id request <> [] /\
  Forall (fun ch => isdecimal ch = true) (form_pipeline_id request).
Proof.
  rewrite validation_errors_rules. intros He.
  apply app_eq_nil in He as [Hp _]. unfold pipeline_id_rule in Hp.
  destruct (truthy (form_pipeline_id request) &&
            _PIPELINE_ID_RE_match (form_pipeline_id request)) eqn:E;
    [| discriminate Hp].
  apply andb_true_iff in E as [_ Hre].
  apply re_match_digits in Hre; [exact Hre |].
  intros Hlast. apply strip_last in Hlast. discriminate Hlast.
Qed.

(** A validated project has no slash. *)
Lemma validated_project settings request :
  validation_errors (form_pipeline_id request) (form_project settings request)
    (form_ref_name settings request) = [] ->
  form_project settings request <> [] /\
  contains (py "/") (form_project settings request) = false.
Proof.
  rewrite validation_errors_rules. intros He.
  apply app_eq_nil in He as [_ He]. apply app_eq_nil in He as [Hp _].
  unfold project_rule in Hp.
  destruct (form_project settings request) as [|a t]; [discriminate Hp |].
  cbn [truthy negb] in Hp.
  destruct (contains (py "/") (a :: t)); [discriminate Hp |]. split; done.
Qed.

(** C10: in the URL of any call the view makes, the pipeline ID is a
    non-empty run of digit characters, none of them a URL delimiter
    and the ASCII ones among them 0 to 9, and the project stands as a
    segment quoted with no character exempted, made of unreserved
    characters and percent escapes, so with no delimiter but the
    percent sign of an escape; the URL is built from these two and the
    organisation URL alone, so it is the same whatever refName was
    submitted, and the refName is in the JSON payload, as it is. *)
Theorem C10_url_injection_safe settings net request c :
  c ∈ posts (handle settings net request).2 ->
  let pipeline_id := form_pipeline_id request in
  let project := form_project settings request in
  exists seg,
    Urllib.quote project (py "") = Some seg /\
    url c = rstrip (AZDO_ORG_URL settings) (py "/") ++ py "/" ++ seg ++
            py "/_apis/pipelines/" ++ pipeline_id ++ py "/runs?api-version=7.1" /\
    pipeline_id <> [] /\
    Forall (fun ch => isdecimal ch = true /\ url_metachar ch = false /\
                      (ch < 0x80 -> is_ascii_digit ch = true)) pipeline_id /\
    contains (py "/") project = false /\
    Forall (fun ch => segment_char ch = true /\
                      (ch = 0x25 \/ url_metachar ch = false)) seg /\
    json c = run_payload (form_ref_name settings request) /\
    (forall net' request' c',
       form_pipeline_id request' = pipeline_id ->
       form_project settings request' = project ->
       c' ∈ posts (handle settings net' request').2 ->
       url c' = url c).
Proof.
  intros Hc pipeline_id project.
  apply handle_posts in Hc as (_ & He & _ & seg & Hq & -> & _).
  destruct (validated_pipeline_id settings request He) as [Hne Hdigits].
  destruct (validated_project settings request He) as [_ Hslash].
  exists seg. split; [exact Hq |]. split; [reflexivity |].
  split; [exact Hne |]. split.
  { eapply Forall_impl; [exact Hdigits |]. intros ch Hch. cbn beta in Hch.
    split; [exact Hch | now apply isdecimal_safe]. }
  split; [exact Hslash |]. split.
  { eapply Forall_impl; [eapply quote_chars, Hq |]. intros ch Hch. cbn beta in Hch.
    split; [exact Hch |].
    destruct (decide (ch = 0x25)) as [-> | Hne']; [now left | right].
    now apply segment_char_not_reserved. }
  split; [reflexivity |].
  intros net' request' c' Hp Hpr Hc'.
  apply handle_posts in Hc' as (_ & _ & _ & seg' & Hq' & -> & _).
  rewrite Hpr in Hq'. fold project in Hq. rewrite Hq in Hq'. injection Hq' as <-.
  unfold call_for. cbn [url]. now rewrite Hp.
Qed.

Lemma C10_url_injection_safe_witness :
  let request := Sample.form (py "42") (py "a?b&c=d#e") (py "refs/heads/x y") in
  let c := call_for Sample.settings (py "a%3Fb%26c%3Dd%23e") (py "42") (py "refs/heads/x y") in
  url c = py "https://dev.azure.com/Org/a%3Fb%26c%3Dd%23e/_apis/pipelines/42/runs?api-version=7.1" /\
  exists seg,
    Urllib.quote (form_project Sample.settings request) (py "") = Some seg /\
    url c = rstrip (AZDO_ORG_URL Sample.settings) (py "/") ++ py "/" ++ seg ++
            py "/_apis/pipelines/" ++ form_pipeline_id request ++
            py "/runs?api-version=7.1" /\
    form_pipeline_id request <> [] /\
    Forall (fun ch => isdecimal ch = true /\ url_metachar ch = false /\
                      (ch < 0x80 -> is_ascii_digit ch = true))
           (form_pipeline_id request) /\
    contains (py "/") (form_project Sample.settings request) = false /\
    Forall (fun ch => segment_char ch = true /\
                      (ch = 0x25 \/ url_metachar ch = false)) seg /\
    json c = run_payload (form_ref_name Sample.settings request) /\
    (forall net' request' c',
       form_pipeline_id request' = form_pipeline_id request ->
       form_project Sample.settings request' = form_project Sample.settings request ->
       c' ∈ posts (handle Sample.settings net' request').2 ->
       url c' = url c).
Proof.
  intros request c. split; [reflexivity |].
  apply (C10_url_injection_safe Sample.settings
           (Sample.always (Replied Sample.created)) request c).
  apply list_elem_of_singleton. reflexivity.
Defined.

(** ** Outcomes *)

Lemma form_context_result settings request :
  form_context settings request !! "result" = None.
Proof. unfold form_context. now rewrite !lookup_insert_ne, lookup_empty. Qed.


(** A page with an error and no result is a failure of the kind the
    log tells. *)
Lemma outcome_failure settings request msg w :
  outcome_of (inr (Render TEMPLATE
                     (<["error" := PyStr msg]> (form_context settings request))), w)
  = kind ← failure_kind (log_records w); Some (Failure kind msg).
Proof.
  unfold outcome_of. cbn [fst snd].
  now rewrite lookup_insert_ne, form_context_result, lookup_insert_eq.
Qed.









(** ** The access token *)


(** The readings of the view that do not involve the token. *)
Lemma with_token_readings tok settings request :
  default_ref (with_token tok settings) = default_ref settings /\
  default_project (with_token tok settings) = default_project settings /\
  form_project (with_token tok settings) request = form_project settings request /\
  form_ref_name (with_token tok settings) request = form_ref_name settings request /\
  form_context (with_token tok settings) request = form_context settings request.
Proof. repeat split. Qed.



(** * Further properties of the view *)

(** ** Tools *)

(** The view reads a request through its method and the three cleaned
    fields only. *)
Lemma handle_ext settings net r1 r2 :
  method r1 = method r2 ->
  form_pipeline_id r1 = form_pipeline_id r2 ->
  form_project settings r1 = form_project settings r2 ->
  form_ref_name settings r1 = form_ref_name settings r2 ->
  handle settings net r1 = handle settings net r2.
Proof.
  intros Hm Hp Hpr Hr.
  unfold handle, devops_trigger, require_http_methods, devops_trigger_body.
  now rewrite Hm, Hp, Hpr, Hr.
Qed.

(** Case analysis on the path a request takes through the view. *)
Ltac by_path settings net request :=
  let Hm := fresh "Hm" in
  let Hg := fresh "Hg" in
  let He := fresh "He" in
  let Hcfg := fresh "Hcfg" in
  let Hq := fresh "Hq" in
  let e := fresh "e" in
  let es := fresh "es" in
  let seg := fresh "seg" in
  destruct (decide (method request = "POST"%string)) as [Hm | Hm];
  [ destruct (validation_errors (form_pipeline_id request)
                (form_project settings request)
                (form_ref_name settings request)) as [|e es] eqn:He;
    [ destruct (configured settings) eqn:Hcfg;
      [ destruct (Urllib.quote (form_project settings request) (py ""))
          as [seg|] eqn:Hq;
        [ rewrite ?(handle_call settings net request seg Hm He Hcfg Hq) in *
        | rewrite ?(handle_unencodable settings net request Hm He Hcfg Hq) in * ]
      | rewrite ?(handle_unconfigured settings net request Hm He Hcfg) in * ]
    | rewrite ?(handle_invalid settings net request e es Hm He) in * ]
  | destruct (decide (method request = "GET"%string)) as [Hg | Hg];
    [ rewrite ?(handle_get settings net request Hg) in *
    | rewrite ?(handle_not_allowed settings net request Hg Hm) in * ] ].

Lemma drop_while_app_all p (pre s : pystr) :
  Forall (fun c => p c = true) pre -> drop_while p (pre ++ s) = drop_while p s.
Proof.
  induction 1 as [|c pre Hc _ IH]; simpl; [reflexivity |]. now rewrite Hc.
Qed.

Lemma drop_while_app_stop p (s t : pystr) :
  drop_while p s <> [] -> drop_while p (s ++ t) = drop_while p s ++ t.
Proof.
  induction s as [|c s IH]; simpl; [done |].
  destruct (p c); [exact IH | reflexivity].
Qed.

Lemma rstrip_with_app_all p (s post : pystr) :
  Forall (fun c => p c = true) post -> rstrip_with p (s ++ post) = rstrip_with p s.
Proof.
  intros H. unfold rstrip_with. rewrite reverse_app.
  rewrite drop_while_app_all; [reflexivity | now apply Forall_reverse].
Qed.

(** Whitespace around a value does not survive [strip]. *)
Lemma strip_padding (pre s post : pystr) :
  Forall (fun c => isspace c = true) pre ->
  Forall (fun c => isspace c = true) post ->
  strip (pre ++ s ++ post) = strip s.
Proof.
  intros Hpre Hpost. unfold strip, lstrip_with.
  rewrite drop_while_app_all by exact Hpre.
  destruct (drop_while isspace s) as [|c t] eqn:E.
  - destruct (drop_while_split isspace s) as (ws & Hs & Hws).
    rewrite E, app_nil_r in Hs. subst ws.
    rewrite drop_while_all; [reflexivity |].
    apply Forall_app; split; assumption.
  - rewrite drop_while_app_stop by (rewrite E; discriminate).
    rewrite E. now apply rstrip_with_app_all.
Qed.

(** ** Methods, attempts and log records *)







(** X4: a timeout of the call gives the page with the retry message
    and no result, one WARNING record with project and pipeline ID,
    and no second call; the text of the exception is neither shown
    nor logged. *)
Theorem X4_timeout_reported settings net request c detail :
  c ∈ posts (handle settings net request).2 ->
  net c = TimedOut detail ->
  handle settings net request =
  (inr (Render TEMPLATE
          (<["error" := PyStr (py "Request to Azure DevOps timed out. Please retry.")]>
             (form_context settings request))),
   {| log_records :=
        [ {| level := WARNING;
             message := py "Timeout triggering pipeline: project=" ++
                        form_project settings request ++ py " pipeline_id=" ++
                        form_pipeline_id request;
             exc_info := None |} ];
      posts := [c] |}) /\
  outcome_of (handle settings net request) =
    Some (Failure TimeoutKind (py "Request to Azure DevOps timed out. Please retry.")).
Proof.
  intros Hc Hnet. apply handle_posts in Hc as (_ & _ & _ & seg & _ & _ & Hh).
  rewrite Hh, Hnet. split; [reflexivity |].
  unfold after_reply. now rewrite outcome_failure.
Qed.

Lemma X4_timeout_reported_witness :
  let net := Sample.always (TimedOut (py "read timed out")) in
  outcome_of (handle Sample.settings net Sample.good_form) =
    Some (Failure TimeoutKind (py "Request to Azure DevOps timed out. Please retry.")).
Proof.
  intros net.
  refine (proj2 (X4_timeout_reported Sample.settings net Sample.good_form
                   (call_for Sample.settings (py "MyProj") (py "42") (py "refs/heads/main"))
                   (py "read timed out") _ _)).
  - apply list_elem_of_singleton. reflexivity.
  - reflexivity.
Defined.

(** X5: any other failure of the call gives the page with the network
    message followed by the text of the exception and no result, and
    one ERROR record with project and pipeline ID that carries the
    exception; no second call is made. *)
Theorem X5_network_failure_reported settings net request c detail :
  c ∈ posts (handle settings net request).2 ->
  net c = Failed detail ->
  handle settings net request =
  (inr (Render TEMPLATE
          (<["error" := PyStr (py "Network error while contacting Azure DevOps: " ++ detail)]>
             (form_context settings request))),
   {| log_records :=
        [ {| level := ERROR;
             message := py "Network error triggering pipeline: project=" ++
                        form_project settings request ++ py " pipeline_id=" ++
                        form_pipeline_id request;
             exc_info := Some (RequestException detail) |} ];
      posts := [c] |}) /\
  outcome_of (handle settings net request) =
    Some (Failure Network (py "Network error while contacting Azure DevOps: " ++ detail)).
Proof.
  intros Hc Hnet. apply handle_posts in Hc as (_ & _ & _ & seg & _ & _ & Hh).
  rewrite Hh, Hnet. split; [reflexivity |].
  unfold after_reply. now rewrite outcome_failure.
Qed.

Lemma X5_network_failure_reported_witness :
  let net := Sample.always (Failed (py "connection refused")) in
  outcome_of (handle Sample.settings net Sample.good_form) =
    Some (Failure Network
            (py "Network error while contacting Azure DevOps: connection refused")).
Proof.
  intros net.
  refine (proj2 (X5_network_failure_reported Sample.settings net Sample.good_form
                   (call_for Sample.settings (py "MyProj") (py "42") (py "refs/heads/main"))
                   (py "connection refused") _ _)).
  - apply list_elem_of_singleton. reflexivity.
  - reflexivity.
Defined.

(** ** The page *)

Lemma form_context_fields settings request :
  form_context settings request !! "pipelineId" = Some (PyStr (form_pipeline_id request)) /\
  form_context settings request !! "project" = Some (PyStr (form_project settings request)) /\
  form_context settings request !! "refName" = Some (PyStr (form_ref_name settings request)) /\
  form_context settings request !! "default_project" = Some (PyStr (default_project settings)) /\
  form_context settings request !! "default_ref" = Some (PyStr (default_ref settings)).
Proof.
  unfold form_context. repeat split;
    repeat first [ rewrite lookup_insert_eq; reflexivity
                 | rewrite lookup_insert_ne by done ].
Qed.

(** The entries of the form survive the error and result entries. *)
Lemma echoed_through settings request (ctx : gmap string pyobj) :
  (forall k, k <> "error"%string -> k <> "result"%string ->
             ctx !! k = form_context settings request !! k) ->
  ctx !! "pipelineId" = Some (PyStr (form_pipeline_id request)) /\
  ctx !! "project" = Some (PyStr (form_project settings request)) /\
  ctx !! "refName" = Some (PyStr (form_ref_name settings request)) /\
  ctx !! "default_project" = Some (PyStr (default_project settings)) /\
  ctx !! "default_ref" = Some (PyStr (default_ref settings)).
Proof.
  intros H. rewrite !H by done. apply form_context_fields.
Qed.

(** X6: every page a POST gets comes from the one template and shows
    the form again as the view read it: the trimmed pipeline ID, the
    project and the ref with the defaults put in, and the two
    defaults, whatever the outcome was. *)
Theorem X6_form_fields_echoed settings net request t ctx :
  method request = "POST"%string ->
  (handle settings net request).1 = inr (Render t ctx) ->
  t = TEMPLATE /\
  ctx !! "pipelineId" = Some (PyStr (form_pipeline_id request)) /\
  ctx !! "project" = Some (PyStr (form_project settings request)) /\
  ctx !! "refName" = Some (PyStr (form_ref_name settings request)) /\
  ctx !! "default_project" = Some (PyStr (default_project settings)) /\
  ctx !! "default_ref" = Some (PyStr (default_ref settings)).
Proof.
  intros Hpost H. revert H.
  by_path settings net request; try done;
    try (unfold after_reply; destruct (net _) as [resp | d | d];
         try destruct (400 <=? status_code resp)%Z);
    cbn [fst]; intros [= <- <-]; (split; [reflexivity |]);
    apply echoed_through; intros k Hk1 Hk2;
    now rewrite ?lookup_insert_ne by done.
Qed.

Lemma X6_form_fields_echoed_witness :
  let request := Sample.form (py " 42 ") (py "") (py "") in
  exists ctx,
    (handle Sample.settings (Sample.always (Replied Sample.created)) request).1 =
    inr (Render TEMPLATE ctx) /\
    ctx !! "pipelineId" = Some (PyStr (py "42")) /\
    ctx !! "project" = Some (PyStr (py "")) /\
    ctx !! "refName" = Some (PyStr (py "refs/heads/main")).
Proof.
  intros request. eexists. split; [reflexivity |].
  destruct (X6_form_fields_echoed Sample.settings
              (Sample.always (Replied Sample.created)) request TEMPLATE _
              eq_refl eq_refl)
    as (_ & Hp & Hpr & Hr & _).
  split; [exact Hp |]. split; [exact Hpr | exact Hr].
Defined.





(** ** The form fields *)

Lemma or_none_strip_padding (v pre post : pystr) :
  Forall (fun c => isspace c = true) pre ->
  Forall (fun c => isspace c = true) post ->
  strip (or_none (Some (pre ++ v ++ post)) (py "")) = strip (or_none (Some v) (py "")).
Proof.
  intros Hpre Hpost. cbn [or_none]. rewrite !or_empty. now apply strip_padding.
Qed.

(** X9: whitespace around a submitted field is ignored. Padding the
    value of any form field with whitespace on either side, Unicode
    whitespace included, changes nothing of what the view returns,
    sends or logs. *)
Theorem X9_padding_ignored settings net request k (v pre post : pystr) :
  POST request !! k = Some v ->
  Forall (fun c => isspace c = true) pre ->
  Forall (fun c => isspace c = true) post ->
  handle settings net (with_field k (pre ++ v ++ post) request) =
  handle settings net request.
Proof.
  intros Hk Hpre Hpost. apply handle_ext; [reflexivity |..];
    unfold form_pipeline_id, form_project, form_ref_name, with_field; cbn [POST].
  - destruct (decide (k = "pipelineId"%string)) as [-> | Hne].
    + rewrite lookup_insert_eq, Hk. now apply or_none_strip_padding.
    + now rewrite lookup_insert_ne.
  - destruct (decide (k = "project"%string)) as [-> | Hne].
    + rewrite lookup_insert_eq, Hk. now rewrite or_none_strip_padding.
    + now rewrite lookup_insert_ne.
  - destruct (decide (k = "refName"%string)) as [-> | Hne].
    + rewrite lookup_insert_eq, Hk. now rewrite or_none_strip_padding.
    + now rewrite lookup_insert_ne.
Qed.

Lemma X9_padding_ignored_witness :
  let net := Sample.always (Replied Sample.created) in
  handle Sample.settings net
    (with_field "pipelineId" ([0x3000; 0x09] ++ py "42" ++ [0x0a]) Sample.good_form) =
  handle Sample.settings net Sample.good_form.
Proof.
  intros net.
  apply (X9_padding_ignored Sample.settings net Sample.good_form
           "pipelineId" (py "42") [0x3000; 0x09] [0x0a]).
  - reflexivity.
  - repeat (apply Forall_cons_2; [reflexivity |]). apply Forall_nil_2.
  - repeat (apply Forall_cons_2; [reflexivity |]). apply Forall_nil_2.
Defined.

(** X10: a field that is missing from the form is read as an empty
    one. Leaving a field out and submitting it empty give the same
    page, the same call and the same log; so a missing project or
    refName falls back to its default and a missing pipelineId is
    refused. *)
Theorem X10_absent_field_is_empty settings net request k :
  handle settings net (without_field k request) =
  handle settings net (with_field k (py "") request).
Proof.
  apply handle_ext; [reflexivity |..];
    unfold form_pipeline_id, form_project, form_ref_name, with_field, without_field;
    cbn [POST].
  - destruct (decide (k = "pipelineId"%string)) as [-> | Hne].
    + now rewrite lookup_delete_eq, lookup_insert_eq.
    + now rewrite lookup_delete_ne, lookup_insert_ne.
  - destruct (decide (k = "project"%string)) as [-> | Hne].
    + now rewrite lookup_delete_eq, lookup_insert_eq.
    + now rewrite lookup_delete_ne, lookup_insert_ne.
  - destruct (decide (k = "refName"%string)) as [-> | Hne].
    + now rewrite lookup_delete_eq, lookup_insert_eq.
    + now rewrite lookup_delete_ne, lookup_insert_ne.
Qed.

(** X11: what passes validation. The three fields as read pass
    exactly when the pipeline ID is a non-empty run of [\d]
    characters, the project is non-empty and has no slash, and the
    ref is the text refs/ followed by anything. *)
Theorem X11_validation_passes_iff settings request :
  let pipeline_id := form_pipeline_id request in
  let project := form_project settings request in
  let ref_name := form_ref_name settings request in
  validation_errors pipeline_id project ref_name = [] <->
  (pipeline_id <> [] /\ Forall (fun ch => isdecimal ch = true) pipeline_id) /\
  (project <> [] /\ 0x2F ∉ project) /\
  (exists rest, ref_name = py "refs/" ++ rest).
Proof.
  intros pipeline_id project ref_name. split.
  - intros He. split; [now apply (validated_pipeline_id settings) |]. split.
    + destruct (validated_project settings request He) as [Hne Hs].
      split; [exact Hne |]. intros Hin. apply contains_char in Hin.
      change (contains (py "/") (form_project settings request) = true) in Hin.
      rewrite Hs in Hin. discriminate Hin.
    + rewrite validation_errors_rules in He.
      apply app_eq_nil in He as [_ He]. apply app_eq_nil in He as [_ He].
      unfold ref_rule in He.
      destruct (startswith ref_name (py "refs/")) eqn:E; [| discriminate He].
      now apply startswith_prefix.
  - intros ((Hne & Hd) & (Hpne & Hslash) & (rest & Hr)).
    rewrite validation_errors_rules.
    unfold pipeline_id_rule, project_rule, ref_rule.
    assert (_PIPELINE_ID_RE_match pipeline_id = true) as ->.
    { apply re_match_digits; [| split; assumption].
      intros Hlast. apply strip_last in Hlast. discriminate Hlast. }
    assert (contains (py "/") project = false) as ->.
    { destruct (contains (py "/") project) eqn:E; [| reflexivity].
      exfalso. apply Hslash. now apply contains_char. }
    rewrite Hr, startswith_app.
    destruct pipeline_id; [done |]. destruct project; [done |]. reflexivity.
Qed.

Lemma X11_validation_passes_iff_witness :
  validation_errors (form_pipeline_id Sample.good_form)
    (form_project Sample.settings Sample.good_form)
    (form_ref_name Sample.settings Sample.good_form) = [].
Proof.
  apply (X11_validation_passes_iff Sample.settings Sample.good_form).
  split; [| split].
  - vm_compute (form_pipeline_id _). split; [discriminate |].
    repeat (apply Forall_cons_2; [reflexivity |]). apply Forall_nil_2.
  - vm_compute (form_project _ _). split; [discriminate |].
    intros Hin. repeat (apply elem_of_cons in Hin as [Hin | Hin]; [discriminate Hin |]).
    inversion Hin.
  - exists (py "heads/main"). reflexivity.
Defined.

(** X12: validation comes first. When a field is refused, the page
    is the same and nothing is sent or logged whatever the
    organisation URL, the token and the network are: a missing
    configuration is not even noticed. *)
Theorem X12_validation_precedes_configuration settings net request org tok net' :
  method request = "POST"%string ->
  validation_errors (form_pipeline_id request) (form_project settings request)
    (form_ref_name settings request) <> [] ->
  handle (with_endpoint org tok settings) net' request = handle settings net request /\
  (handle settings net request).2 = world0.
Proof.
  intros Hm Hne.
  destruct (validation_errors (form_pipeline_id request) (form_project settings request)
              (form_ref_name settings request)) as [|e es] eqn:He; [done |].
  rewrite (handle_invalid settings net request e es Hm He).
  rewrite (handle_invalid (with_endpoint org tok settings) net' request e es Hm He).
  split; reflexivity.
Qed.

Lemma X12_validation_precedes_configuration_witness :
  let request := Sample.form (py "abc") (py "MyProj") (py "refs/heads/main") in
  handle (with_endpoint (py "") (py "") Sample.settings)
         (Sample.always (TimedOut (py ""))) request =
  handle Sample.settings (Sample.always (Replied Sample.created)) request /\
  shown_error (handle (with_endpoint (py "") (py "") Sample.settings)
                 (Sample.always (TimedOut (py ""))) request) =
  Some (py "Pipeline ID must be a numeric ID (e.g., 42).").
Proof.
  intros request.
  destruct (X12_validation_precedes_configuration Sample.settings
              (Sample.always (Replied Sample.created)) request (py "") (py "")
              (Sample.always (TimedOut (py ""))) eq_refl) as [Heq _].
  - vm_compute. discriminate.
  - split; [exact Heq |]. rewrite Heq. reflexivity.
Defined.

(** ** The organisation URL and the project in the URL *)

Lemma rstrip_slashes (org slashes : pystr) :
  Forall (fun ch => ch = 0x2F) slashes ->
  rstrip (org ++ slashes) (py "/") = rstrip org (py "/").
Proof.
  intros H. unfold rstrip. apply rstrip_with_app_all.
  eapply Forall_impl; [exact H |]. intros ch ->. reflexivity.
Qed.

(** X13: trailing slashes of the organisation URL do not matter. With
    a non-empty AZDO_ORG_URL, writing it with any number of further
    slashes at its end gives the same call to the same URL, the same
    page and the same log. *)
Theorem X13_org_url_trailing_slashes settings net request slashes :
  AZDO_ORG_URL settings <> [] ->
  Forall (fun ch => ch = 0x2F) slashes ->
  handle (with_endpoint (AZDO_ORG_URL settings ++ slashes) (AZDO_PAT settings) settings)
         net request =
  handle settings net request.
Proof.
  intros Horg Hsl.
  set (s' := with_endpoint (AZDO_ORG_URL settings ++ slashes) (AZDO_PAT settings) settings).
  assert (configured s' = configured settings) as Hcfg'.
  { unfold configured, s'. cbn. now destruct (AZDO_ORG_URL settings). }
  by_path settings net request.
  - rewrite (handle_call s' net request seg Hm He Hcfg' Hq).
    assert (call_for s' seg (form_pipeline_id request) (form_ref_name s' request) =
            call_for settings seg (form_pipeline_id request)
              (form_ref_name settings request)) as ->; [| reflexivity].
    unfold call_for, run_url, s'. cbn [AZDO_ORG_URL AZDO_PAT with_endpoint].
    now rewrite rstrip_slashes.
  - now rewrite (handle_unencodable s' net request Hm He Hcfg' Hq).
  - now rewrite (handle_unconfigured s' net request Hm He Hcfg').
  - now rewrite (handle_invalid s' net request e es Hm He).
  - now rewrite (handle_get s' net request Hg).
  - now rewrite (handle_not_allowed s' net request Hg Hm).
Qed.

Lemma X13_org_url_trailing_slashes_witness :
  let net := Sample.always (Replied Sample.created) in
  posts (handle (with_endpoint (AZDO_ORG_URL Sample.settings ++ py "//")
                   (AZDO_PAT Sample.settings) Sample.settings)
                net Sample.good_form).2 =
  [call_for Sample.settings (py "MyProj") (py "42") (py "refs/heads/main")].
Proof.
  intros net.
  rewrite (X13_org_url_trailing_slashes Sample.settings net Sample.good_form (py "//")).
  - reflexivity.
  - vm_compute. discriminate.
  - repeat (apply Forall_cons_2; [reflexivity |]). apply Forall_nil_2.
Defined.

Lemma always_safe_ascii ch : Urllib.always_safe ch = true -> ch < 0x80.
Proof.
  unfold Urllib.always_safe.
  rewrite !orb_true_iff, !andb_true_iff, !N.leb_le, !N.eqb_eq. lia.
Qed.

(** [quote] leaves a text of unreserved characters as it is. *)
Lemma quote_safe_identity (s : pystr) :
  Forall (fun ch => Urllib.always_safe ch = true) s ->
  Urllib.quote s (py "") = Some s.
Proof.
  intros H. unfold Urllib.quote.
  assert (Urllib.utf8_encode s = Some s) as ->.
  { induction H as [|ch s Hch _ IH]; [reflexivity |].
    cbn [Urllib.utf8_encode]. rewrite IH. unfold Urllib.utf8_encode_cp.
    apply always_safe_ascii in Hch. apply N.ltb_lt in Hch. now rewrite Hch. }
  cbn. f_equal.
  induction H as [|ch s Hch _ IH]; [reflexivity |].
  cbn. unfold Urllib.quote_byte at 1. rewrite Hch. cbn. f_equal. exact IH.
Qed.

(** X14: a project name of ASCII letters, digits and the characters
    underscore, dot, hyphen and tilde stands in the URL of the call as
    it was read, with no escape. *)
Theorem X14_safe_project_verbatim settings net request c :
  c ∈ posts (handle settings net request).2 ->
  Forall (fun ch => Urllib.always_safe ch = true) (form_project settings request) ->
  url c = rstrip (AZDO_ORG_URL settings) (py "/") ++ py "/" ++
          form_project settings request ++ py "/_apis/pipelines/" ++
          form_pipeline_id request ++ py "/runs?api-version=7.1".
Proof.
  intros Hc Hsafe. apply handle_posts in Hc as (_ & _ & _ & seg & Hq & -> & _).
  rewrite (quote_safe_identity _ Hsafe) in Hq. injection Hq as <-. reflexivity.
Qed.

Lemma X14_safe_project_verbatim_witness :
  let request := Sample.form (py "7") (py "My-Proj_2.x~") (py "refs/tags/v1") in
  url (call_for Sample.settings (py "My-Proj_2.x~") (py "7") (py "refs/tags/v1")) =
  py "https://dev.azure.com/Org/My-Proj_2.x~/_apis/pipelines/7/runs?api-version=7.1".
Proof.
  intros request.
  rewrite (X14_safe_project_verbatim Sample.settings
             (Sample.always (Replied Sample.created)) request
             (call_for Sample.settings (py "My-Proj_2.x~") (py "7") (py "refs/tags/v1"))).
  - reflexivity.
  - apply list_elem_of_singleton. reflexivity.
  - vm_compute (form_project _ _).
    repeat (apply Forall_cons_2; [reflexivity |]). apply Forall_nil_2.
Defined.

(** ** The URL read back *)

Section Injectivity.

Import Urllib.

(** The six-bit groups of a code point. *)
Lemma utf8_digits c :
  c = 64 * (c / 64) + c mod 64 /\ c mod 64 < 64 /\
  c / 64 = 64 * (c / 0x1000) + (c / 64) mod 64 /\ (c / 64) mod 64 < 64 /\
  c / 0x1000 = 64 * (c / 0x40000) + (c / 0x1000) mod 64 /\ (c / 0x1000) mod 64 < 64.
Proof.
  assert (c / 0x1000 = c / 64 / 64) as E1 by now rewrite N.Div0.div_div.
  assert (c / 0x40000 = c / 0x1000 / 64) as E2 by now rewrite N.Div0.div_div.
  rewrite E2. rewrite E1 at 1.
  repeat split; first [apply N.Div0.div_mod | now apply N.mod_lt].
Qed.

Ltac to_prop :=
  repeat match goal with
         | H : (_ <? _) = true |- _ => apply N.ltb_lt in H
         | H : (_ <? _) = false |- _ => apply N.ltb_ge in H
         | H : (_ && _) = true |- _ => apply andb_true_iff in H as [? ?]
         | H : (_ && _) = false |- _ => apply andb_false_iff in H
         | H : (_ <=? _) = true |- _ => apply N.leb_le in H
         | H : (_ <=? _) = false |- _ => apply N.leb_gt in H
         end.

(** The bytes of one code point, read at the head of a byte string,
    give the code point back and leave the rest. *)
Lemma utf8_encode_cp_inj c c' bs bs' r r' :
  utf8_encode_cp c = Some bs -> utf8_encode_cp c' = Some bs' ->
  bs ++ r = bs' ++ r' -> c = c' /\ r = r'.
Proof.
  unfold utf8_encode_cp.
  pose proof (utf8_digits c) as (? & ? & ? & ? & ? & ?).
  pose proof (utf8_digits c') as (? & ? & ? & ? & ? & ?).
  repeat match goal with
         | |- context [if ?b then _ else _] => destruct b eqn:?
         end;
    intros Henc Henc' Hcat; try discriminate;
    injection Henc as <-; injection Henc' as <-; cbn [app] in Hcat;
    to_prop; simplify_eq;
    first [ split; [lia | reflexivity] | exfalso; lia ].
Qed.

Lemma utf8_encode_cp_nonempty c bs : utf8_encode_cp c = Some bs -> bs <> [].
Proof.
  unfold utf8_encode_cp.
  repeat match goal with
         | |- context [if ?b then _ else _] => destruct b
         end; intros [= <-]; discriminate.
Qed.

Lemma utf8_encode_inj s s' bs :
  utf8_encode s = Some bs -> utf8_encode s' = Some bs -> s = s'.
Proof.
  revert s' bs. induction s as [|c s IH]; intros [|c' s'] bs; cbn [utf8_encode].
  - reflexivity.
  - intros [= <-]. destruct (utf8_encode_cp c') as [b|] eqn:E; [| discriminate].
    destruct (utf8_encode s'); [| discriminate]. intros [= H].
    destruct b; [now apply utf8_encode_cp_nonempty in E | discriminate H].
  - destruct (utf8_encode_cp c) as [b|] eqn:E; [| discriminate].
    destruct (utf8_encode s); [| discriminate]. intros [= <-] [= H].
    destruct b; [now apply utf8_encode_cp_nonempty in E | discriminate H].
  - destruct (utf8_encode_cp c) as [b|] eqn:E; [| discriminate].
    destruct (utf8_encode s) as [r|] eqn:Er; [| discriminate].
    destruct (utf8_encode_cp c') as [b'|] eqn:E'; [| discriminate].
    destruct (utf8_encode s') as [r'|] eqn:Er'; [| discriminate].
    intros [= <-] [= H].
    destruct (utf8_encode_cp_inj _ _ _ _ _ _ E' E H) as [-> ->].
    f_equal. eapply IH; [reflexivity | exact Er'].
Qed.

Lemma hex_digit_inj n m : n < 16 -> m < 16 -> hex_digit n = hex_digit m -> n = m.
Proof.
  unfold hex_digit. intros Hn Hm.
  destruct (N.ltb_spec n 10), (N.ltb_spec m 10); lia.
Qed.

(** One escaped or kept byte, read at the head of a text, gives the
    byte back and leaves the rest. *)
Lemma quote_byte_inj b b' r r' :
  b < 256 -> b' < 256 ->
  quote_byte (py "") b ++ r = quote_byte (py "") b' ++ r' -> b = b' /\ r = r'.
Proof.
  intros Hb Hb'. unfold quote_byte.
  rewrite !(bool_decide_eq_false_2 (_ ∈ py "")) by (intros H; inversion H).
  rewrite !orb_false_r.
  destruct (always_safe b) eqn:Es, (always_safe b') eqn:Es'; cbn [app]; intros H.
  - now injection H as -> ->.
  - injection H as -> _. vm_compute in Es. discriminate Es.
  - injection H as <- _. vm_compute in Es'. discriminate Es'.
  - injection H as H1 H2 ->.
    apply hex_digit_inj in H1; [| apply N.Div0.div_lt_upper_bound; lia ..].
    apply hex_digit_inj in H2; [| apply N.mod_lt; lia ..].
    split; [| reflexivity].
    rewrite (N.Div0.div_mod b 16), (N.Div0.div_mod b' 16). now rewrite H1, H2.
Qed.

Lemma quote_bytes_inj bs bs' :
  Forall (fun b => b < 256) bs -> Forall (fun b => b < 256) bs' ->
  mjoin (quote_byte (py "") <$> bs) = mjoin (quote_byte (py "") <$> bs') -> bs = bs'.
Proof.
  intros H. revert bs'. induction H as [|b bs Hb _ IH]; intros bs' H'.
  - destruct H' as [|b' bs' Hb' _]; [reflexivity |]. cbn.
    unfold quote_byte at 1. destruct (_ || _); discriminate.
  - destruct H' as [|b' bs' Hb' H']; cbn.
    + unfold quote_byte at 1. destruct (_ || _); discriminate.
    + intros H. apply quote_byte_inj in H as [-> H]; [| assumption ..].
      f_equal. now apply IH.
Qed.

(** [quote] with no character exempted loses nothing: two texts with
    the same quoted form are the same text. *)
Lemma quote_inj s s' q :
  quote s (py "") = Some q -> quote s' (py "") = Some q -> s = s'.
Proof.
  unfold quote.
  destruct (utf8_encode s) as [bs|] eqn:E; [| discriminate].
  destruct (utf8_encode s') as [bs'|] eqn:E'; [| discriminate].
  cbn. intros [= <-] [= H]. symmetry in H.
  apply quote_bytes_inj in H; [| eapply utf8_encode_bytes; eassumption ..].
  subst bs'. eapply utf8_encode_inj; eassumption.
Qed.

End Injectivity.

Lemma split_at_separator (x : N) (l1 l2 r1 r2 : pystr) :
  x ∉ l1 -> x ∉ l2 -> l1 ++ x :: r1 = l2 ++ x :: r2 -> l1 = l2 /\ r1 = r2.
Proof.
  revert l2. induction l1 as [|a l1 IH]; intros [|b l2] H1 H2; cbn [app].
  - now intros [= ->].
  - intros [= <- _]. exfalso. apply H2. now left.
  - intros [= -> _]. exfalso. apply H1. now left.
  - intros [= -> H]. apply IH in H as [-> ->]; [done | |].
    + intros Hin. apply H1. now right.
    + intros Hin. apply H2. now right.
Qed.

Lemma segment_without_slash seg :
  Forall (fun ch => segment_char ch = true) seg -> 0x2F ∉ seg.
Proof.
  intros H Hin. rewrite Forall_forall in H. specialize (H _ Hin).
  vm_compute in H. discriminate H.
Qed.

(** X15: the call tells its target. For one configuration, two calls
    the view makes have the same URL exactly when project and pipeline
    ID, as read, are the same, and the same payload exactly when the
    ref is the same: quoting and joining lose nothing, so no two
    different projects or pipelines share a URL. *)
Theorem X15_call_identifies_target settings net1 net2 r1 r2 c1 c2 :
  c1 ∈ posts (handle settings net1 r1).2 ->
  c2 ∈ posts (handle settings net2 r2).2 ->
  (url c1 = url c2 <->
   form_project settings r1 = form_project settings r2 /\
   form_pipeline_id r1 = form_pipeline_id r2) /\
  (json c1 = json c2 <-> form_ref_name settings r1 = form_ref_name settings r2).
Proof.
  intros Hc1 Hc2.
  apply handle_posts in Hc1 as (_ & _ & _ & seg1 & Hq1 & -> & _).
  apply handle_posts in Hc2 as (_ & _ & _ & seg2 & Hq2 & -> & _).
  unfold call_for. cbn [url json]. split.
  - split.
    + unfold run_url. intros H.
      apply app_inv_head in H. apply app_inv_head in H.
      change (py "/_apis/pipelines/") with (0x2F :: py "_apis/pipelines/") in H.
      cbn [app] in H.
      apply split_at_separator in H as [-> H];
        [| eapply segment_without_slash, quote_chars; eassumption ..].
      apply app_inv_head in H. apply app_inv_tail in H.
      split; [eapply quote_inj; eassumption | exact H].
    + intros [Hp Hid]. rewrite Hp in Hq1. rewrite Hq1 in Hq2.
      injection Hq2 as <-. now rewrite Hid.
  - unfold run_payload. split; [intros H; now simplify_eq | now intros ->].
Qed.

Lemma X15_call_identifies_target_witness :
  let net := Sample.always (Replied Sample.created) in
  let r1 := Sample.form (py "42") (py "a b") (py "refs/heads/main") in
  let r2 := Sample.form (py "42") (py "a%20b") (py "refs/heads/main") in
  url (call_for Sample.settings (py "a%20b") (py "42") (py "refs/heads/main")) <>
  url (call_for Sample.settings (py "a%2520b") (py "42") (py "refs/heads/main")).
Proof.
  intros net r1 r2 H.
  destruct (X15_call_identifies_target Sample.settings net net r1 r2
              (call_for Sample.settings (py "a%20b") (py "42") (py "refs/heads/main"))
              (call_for Sample.settings (py "a%2520b") (py "42") (py "refs/heads/main")))
    as [Hurl _].
  - apply list_elem_of_singleton. reflexivity.
  - apply list_elem_of_singleton. reflexivity.
  - apply Hurl in H as [Hp _]. vm_compute in Hp. discriminate Hp.
Defined.

(** ** The response body and the helper on their own *)

(** X16: the fallback for a body that is not JSON keeps a prefix of
    the body under the key raw: the first 2000 characters, so the
    whole body when it has no more than 2000, and never an empty
    text. *)
Theorem X16_raw_fallback (resp : Response) :
  strip (text resp) <> [] -> json_value resp = None ->
  exists raw,
    _safe_json resp = PyDict [(py "raw", PyStr raw)] /\
    (exists rest, text resp = raw ++ rest) /\
    length raw = Nat.min 2000 (length (text resp)) /\
    ((length (text resp) <= 2000)%nat -> raw = text resp) /\
    raw <> [].
Proof.
  intros Hne Hj. exists (take 2000 (text resp)). split.
  { unfold _safe_json. rewrite or_empty, Hj.
    now rewrite bool_decide_eq_false_2. }
  split; [exists (drop 2000 (text resp)); now rewrite take_drop |].
  split; [apply length_take |].
  split; [intros Hlen; now apply take_ge |].
  destruct (text resp); [done | discriminate].
Qed.

Lemma X16_raw_fallback_witness :
  _safe_json {| status_code := 500; text := py "<html>oops</html>"; json_value := None |} =
  PyDict [(py "raw", PyStr (py "<html>oops</html>"))].
Proof.
  destruct (X16_raw_fallback
              {| status_code := 500; text := py "<html>oops</html>"; json_value := None |})
    as (raw & -> & _ & _ & Hwhole & _).
  - vm_compute. discriminate.
  - reflexivity.
  - rewrite Hwhole; [reflexivity |]. vm_compute. lia.
Defined.



(** ** The form shown again *)

Lemma strip_fixed (t : pystr) :
  (forall c, head t = Some c -> isspace c = false) ->
  (forall c, last t = Some c -> isspace c = false) ->
  strip t = t.
Proof.
  intros Hh Hl. unfold strip, lstrip_with, rstrip_with.
  assert (drop_while isspace t = t) as ->.
  { destruct t as [|c t]; [reflexivity |]. cbn [drop_while]. now rewrite (Hh c). }
  assert (drop_while isspace (reverse t) = reverse t) as ->.
  { destruct (reverse t) as [|c u] eqn:E; [reflexivity |].
    cbn [drop_while]. rewrite (Hl c); [reflexivity |].
    rewrite <- (reverse_involutive t), E, last_reverse. reflexivity. }
  apply reverse_involutive.
Qed.

Lemma strip_head (s : pystr) c : head (strip s) = Some c -> isspace c = false.
Proof.
  unfold strip, lstrip_with.
  destruct (rstrip_with_split isspace (drop_while isspace s)) as (tail & Hs & _).
  destruct (rstrip_with isspace (drop_while isspace s)) as [|a u]; [discriminate |].
  cbn [head]. intros [= ->]. eapply drop_while_head. exact Hs.
Qed.

(** What [strip] gives, [strip] leaves alone. *)
Lemma strip_idempotent (s : pystr) : strip (strip s) = strip s.
Proof. apply strip_fixed; [apply strip_head | apply strip_last]. Qed.

(** X18: the form shown again can be sent again. When the two
    defaults carry no whitespace at their ends, submitting the three
    fields as the page shows them gives the same outcome, call and log
    as the first submission. *)
Theorem X18_resubmission settings net request :
  strip (default_project settings) = default_project settings ->
  strip (default_ref settings) = default_ref settings ->
  handle settings net (resubmitted settings request) = handle settings net request.
Proof.
  intros Hdp Hdr. apply handle_ext; [reflexivity |..].
  - unfold form_pipeline_id at 1. unfold resubmitted. cbn [POST].
    rewrite lookup_insert_eq. cbn [or_none]. rewrite or_empty.
    apply strip_idempotent.
  - unfold form_project at 1. unfold resubmitted. cbn [POST].
    rewrite lookup_insert_ne, lookup_insert_eq by done. cbn [or_none].
    rewrite or_empty. unfold form_project.
    destruct (strip (or_none (POST request !! "project") (py ""))) as [|a u] eqn:E.
    + cbn [or_ truthy]. rewrite Hdp. now destruct (default_project settings).
    + cbn [or_ truthy]. rewrite <- E, strip_idempotent, E. reflexivity.
  - unfold form_ref_name at 1. unfold resubmitted. cbn [POST].
    rewrite !lookup_insert_ne, lookup_insert_eq by done. cbn [or_none].
    rewrite or_empty. unfold form_ref_name.
    destruct (strip (or_none (POST request !! "refName") (py ""))) as [|a u] eqn:E.
    + cbn [or_ truthy]. rewrite Hdr. now destruct (default_ref settings).
    + cbn [or_ truthy]. rewrite <- E, strip_idempotent, E. reflexivity.
Qed.

Lemma X18_resubmission_witness :
  let net := Sample.always (Replied Sample.not_found) in
  let request := Sample.form (py " 42 ") (py " My Proj") (py "") in
  handle Sample.settings net (resubmitted Sample.settings request) =
  handle Sample.settings net request.
Proof.
  intros net request.
  apply (X18_resubmission Sample.settings net request); reflexivity.
Defined.
